(** * Energy Square backend: the metric reconstruction engine

    A shallow embedding of the numeric core of the backend:

    - [app/services/community_dashboard_service.py]
      ([DataPresentationService]: safe-float normalisation, current
      generation and consumption, hour interpolation, source breakdown),
    - [app/models/community_config.py] and [app/services/community_config.py]
      (the configuration document, its manager and the cached copy),
    - [app/routers/config.py] (the update endpoint and its request schema),
    - [app/services/data_transformation.py] (the derived efficiency column).

    Python floats are IEEE binary64 numbers.  Every function of the engine is
    written once over an arithmetic interface [Arith] and used at two
    instances: [exact], where a finite float is a rational number and NaN and
    the two infinities are kept as separate values (no rounding, no overflow,
    no signed zero), and [binary64], Rocq's primitive floats, which evaluate
    exactly as the interpreter does.  General statements are proved at
    [exact]; [binary64] is used to run the code on concrete inputs. *)

From Stdlib Require Import ZArith QArith Qcanon Lia.
From Stdlib Require Import Floats.
From stdpp Require Import base option list gmap strings sorting.

Local Open Scope Z_scope.

(* ===================================================================== *)
(** ** Arithmetic interface *)
(* ===================================================================== *)

(** The operations of Python's [float] the engine uses.  [div] is IEEE
    division (what numpy and pandas compute); Python's own [/] raises
    [ZeroDivisionError] on a zero divisor and is [py_div] below. *)
Record Arith : Type := MkArith {
  num   : Type;
  of_Z  : Z -> num;                (* float(n) for an int n *)
  add   : num -> num -> num;
  sub   : num -> num -> num;
  mul   : num -> num -> num;
  div   : num -> num -> num;
  ltb   : num -> num -> bool;      (* x < y *)
  leb   : num -> num -> bool;      (* x <= y *)
  eqb   : num -> num -> bool;      (* x == y *)
  trunc : num -> Z;                (* int(x), truncation towards zero *)
  pinf  : num                      (* float('inf') *)
}.

(** *** The exact instance *)

Inductive xfloat : Type :=
  | Fin (q : Qc)
  | PInf
  | NInf
  | NaN.

Definition qc_ltb (a b : Qc) : bool :=
  match (a ?= b)%Qc with Lt => true | _ => false end.
Definition qc_leb (a b : Qc) : bool :=
  match (a ?= b)%Qc with Gt => false | _ => true end.
Definition qc_eqb (a b : Qc) : bool :=
  match (a ?= b)%Qc with Eq => true | _ => false end.

Definition qc_of_Z (z : Z) : Qc := Q2Qc (inject_Z z).
Definition qc_trunc (q : Qc) : Z := Z.quot (Qnum (this q)) (Zpos (Qden (this q))).

Definition xopp (x : xfloat) : xfloat :=
  match x with
  | Fin q => Fin (- q)%Qc
  | PInf => NInf
  | NInf => PInf
  | NaN => NaN
  end.

Definition xadd (x y : xfloat) : xfloat :=
  match x, y with
  | NaN, _ | _, NaN => NaN
  | Fin a, Fin b => Fin (a + b)%Qc
  | PInf, NInf | NInf, PInf => NaN
  | PInf, _ | _, PInf => PInf
  | NInf, _ | _, NInf => NInf
  end.

Definition xsub (x y : xfloat) : xfloat := xadd x (xopp y).

(** Sign of a value that is not NaN: [true] for negative. *)
Definition xneg (x : xfloat) : bool :=
  match x with
  | Fin q => qc_ltb q 0%Qc
  | NInf => true
  | _ => false
  end.

Definition xis_zero (x : xfloat) : bool :=
  match x with Fin q => qc_eqb q 0%Qc | _ => false end.

Definition xsigned_inf (negative : bool) : xfloat :=
  if negative then NInf else PInf.

Definition xmul (x y : xfloat) : xfloat :=
  match x, y with
  | NaN, _ | _, NaN => NaN
  | Fin a, Fin b => Fin (a * b)%Qc
  | _, _ =>
      if xis_zero x || xis_zero y then NaN
      else xsigned_inf (xorb (xneg x) (xneg y))
  end.

Definition xdiv (x y : xfloat) : xfloat :=
  match x, y with
  | NaN, _ | _, NaN => NaN
  | Fin a, Fin b =>
      if qc_eqb b 0%Qc
      then (if qc_eqb a 0%Qc then NaN else xsigned_inf (qc_ltb a 0%Qc))
      else Fin (a / b)%Qc
  | Fin _, _ => Fin 0%Qc
  | _, Fin _ => xsigned_inf (xorb (xneg x) (xneg y))
  | _, _ => NaN
  end.

Definition xltb (x y : xfloat) : bool :=
  match x, y with
  | NaN, _ | _, NaN => false
  | Fin a, Fin b => qc_ltb a b
  | NInf, NInf => false
  | NInf, _ => true
  | _, PInf => match x with PInf => false | _ => true end
  | _, _ => false
  end.

Definition xeqb (x y : xfloat) : bool :=
  match x, y with
  | Fin a, Fin b => qc_eqb a b
  | PInf, PInf | NInf, NInf => true
  | _, _ => false
  end.

Definition xleb (x y : xfloat) : bool := xltb x y || xeqb x y.

(** [int(x)] raises on NaN and on the infinities; the engine never takes
    the integer part of such a value and the instance answers 0 there. *)
Definition xtrunc (x : xfloat) : Z :=
  match x with Fin q => qc_trunc q | _ => 0 end.

Definition exact : Arith :=
  {| num := xfloat; of_Z := fun z => Fin (qc_of_Z z);
     add := xadd; sub := xsub; mul := xmul; div := xdiv;
     ltb := xltb; leb := xleb; eqb := xeqb;
     trunc := xtrunc; pinf := PInf |}.

(** *** The binary64 instance *)

(** [float(n)] for [|n| < 2^63]. *)
Definition b64_of_Z (z : Z) : float :=
  if (z <? 0)%Z
  then PrimFloat.opp (PrimFloat.of_uint63 (Uint63.of_Z (- z)))
  else PrimFloat.of_uint63 (Uint63.of_Z z).

Definition b64_trunc (x : float) : Z :=
  match Prim2SF x with
  | S754_finite s m e =>
      let a := if (0 <=? e)%Z then Z.shiftl (Zpos m) e
               else Z.shiftr (Zpos m) (- e) in
      if s then - a else a
  | _ => 0
  end.

Definition binary64 : Arith :=
  {| num := float; of_Z := b64_of_Z;
     add := PrimFloat.add; sub := PrimFloat.sub;
     mul := PrimFloat.mul; div := PrimFloat.div;
     ltb := PrimFloat.ltb; leb := PrimFloat.leb; eqb := PrimFloat.eqb;
     trunc := b64_trunc; pinf := infinity |}.

(* ===================================================================== *)
(** ** Python values *)
(* ===================================================================== *)

Section Values.
Context (A : Arith).

(** A JSON number or null as [json.load] returns it. *)
Inductive pyval : Type :=
  | PNone
  | PInt (z : Z)
  | PFloat (x : num A).

Definition zero : num A := of_Z A 0.
Definition ninf : num A := sub A zero (pinf A).   (* float('-inf') *)

(** A decimal literal [n/d], e.g. 0.0001 is [lit 1 10000]. *)
Definition lit (n : Z) (d : Z) : num A := div A (of_Z A n) (of_Z A d).

(** [float(value)] on a number. *)
Definition to_float (v : pyval) : option (num A) :=
  match v with
  | PNone => None                  (* TypeError *)
  | PInt z => Some (of_Z A z)
  | PFloat x => Some x
  end.

(** [max(a, b)] and [min(a, b)]: the first argument is kept unless the
    second compares strictly beyond it. *)
Definition py_max (a b : num A) : num A := if ltb A a b then b else a.
Definition py_min (a b : num A) : num A := if ltb A b a then b else a.

(** Python's [a / b]: [None] stands for [ZeroDivisionError]. *)
Definition py_div (a b : num A) : option (num A) :=
  if eqb A b zero then None else Some (div A a b).

(** [sum(xs)]: a left fold starting from the int 0. *)
Definition py_sum (xs : list (num A)) : num A := foldl (add A) zero xs.

(** [_safe_float] *)
Definition _safe_float (value : pyval) : num A :=
  match value with
  | PNone => zero
  | PInt z => of_Z A z
  | PFloat x =>
      if negb (eqb A x x) then zero                       (* NaN check *)
      else if eqb A x (pinf A) || eqb A x ninf then zero
      else x
  end.

Definition safe_num (x : num A) : num A := _safe_float (PFloat x).
End Values.

Arguments PNone {A}.
Arguments PInt {A} z.
Arguments PFloat {A} x.


(* ===================================================================== *)
(** ** The canonical dataset as the engine reads it *)
(* ===================================================================== *)

(** One record of an hourly series.  [hour] is the integer the canonicalizer
    derives from the timestamp ([None]: the key is absent or null); every
    other column is looked up by name. *)
Record row (A : Arith) : Type := MkRow {
  hour : option Z;
  cols : gmap string (pyval A)
}.
Arguments MkRow {A} hour cols.
Arguments hour {A} r.
Arguments cols {A} r.

(** [self.data]: a missing key reads as the empty list. *)
Record dataset (A : Arith) : Type := MkData {
  plant_1_hourly : list (row A);
  plant_2_hourly : list (row A);
  demand_data    : list (row A)
}.
Arguments MkData {A} _ _ _.
Arguments plant_1_hourly {A} d.
Arguments plant_2_hourly {A} d.
Arguments demand_data {A} d.

(** The seven regions summed by the consumption code, spelled as there. *)
Definition regions : list string :=
  ["Calabria"; "Sardegna"; "Sicilia"; "North"; "Central-northern Italy";
   "Centeral-southern Italy"; "Southern-Italy"]%string.

(** The result of [get_energy_source_breakdown]. *)
Record breakdown (A : Arith) : Type := MkBreakdown {
  solar : num A;
  grid  : num A
}.
Arguments MkBreakdown {A} solar grid.
Arguments solar {A} b.
Arguments grid {A} b.

(* ===================================================================== *)
(** ** Pure metrics *)
(* ===================================================================== *)

Section PureMetrics.
Context (A : Arith).
Local Abbreviation num := (num A).
Local Abbreviation zero := (zero A).

(** [d.get('hour') == h] *)
Definition at_hour (h : Z) (d : row A) : bool :=
  match hour d with Some k => (k =? h)%Z | None => false end.

(** [d.get(key, 0)] *)
Definition get0 (d : row A) (key : string) : pyval A :=
  default (PInt 0) (cols d !! key).

(** [v > 0]; [None] stands for the [TypeError] of comparing null. *)
Definition gt0 (v : pyval A) : option bool :=
  match v with
  | PNone => None
  | PInt z => Some (0 <? z)%Z
  | PFloat x => Some (ltb A zero x)
  end.

(** [[d.get('AC_POWER', 0) for d in rows if d.get('AC_POWER', 0) > 0]],
    each element as the float it enters the sum with. *)
Fixpoint positive_powers (rows : list (row A)) : option (list num) :=
  match rows with
  | [] => Some []
  | d :: rest =>
      let v := get0 d "AC_POWER" in
      match gt0 v with
      | None => None
      | Some keep =>
          match positive_powers rest with
          | None => None
          | Some ps =>
              if keep
              then match to_float A v with
                   | Some x => Some (x :: ps)
                   | None => None
                   end
              else Some ps
          end
      end
  end.

Definition list_empty {X} (l : list X) : bool :=
  match l with [] => true | _ => false end.

(** [sum(powers) / len(powers) if powers else 0], after the test
    [if plant_hour_data:]. *)
Definition plant_avg (hour_data : list (row A)) : option num :=
  if list_empty hour_data then Some zero
  else
    match positive_powers hour_data with
    | None => None
    | Some powers =>
        if list_empty powers then Some zero
        else py_div A (py_sum A powers) (of_Z A (Z.of_nat (length powers)))
    end.

(** [_calculate_real_generation]; [None] when the body raises. *)
Definition _calculate_real_generation
    (h : Z) (plant_1_data plant_2_data : list (row A)) : option num :=
  if list_empty plant_1_data || list_empty plant_2_data then Some zero
  else
    let plant_1_hour_data := filter (fun d => at_hour h d = true) plant_1_data in
    let plant_2_hour_data := filter (fun d => at_hour h d = true) plant_2_data in
    match plant_avg plant_1_hour_data with
    | None => None
    | Some plant_1_avg =>
        match plant_avg plant_2_hour_data with
        | None => None
        | Some plant_2_avg =>
            Some (safe_num A (add A plant_1_avg plant_2_avg))
        end
    end.

(** [get_current_generation], with [current_hour] standing for
    [datetime.now().hour]. *)
Definition get_current_generation (data : dataset A) (current_hour : Z) : num :=
  let plant_1_data := plant_1_hourly data in
  let plant_2_data := plant_2_hourly data in
  let body : option num :=
    if list_empty plant_1_data || list_empty plant_2_data then Some zero
    else
      let plant_1_hour_data :=
        filter (fun d => at_hour current_hour d = true) plant_1_data in
      let plant_2_hour_data :=
        filter (fun d => at_hour current_hour d = true) plant_2_data in
      match plant_avg plant_1_hour_data with
      | None => None
      | Some plant_1_avg =>
          match plant_avg plant_2_hour_data with
          | None => None
          | Some plant_2_avg =>
              Some (safe_num A (add A plant_1_avg plant_2_avg))
          end
      end in
  default zero body.                     (* except Exception: return 0.0 *)

(** [get_net_balance] and [get_grid_export] *)
Definition get_net_balance (generation consumption : num) : num :=
  safe_num A (sub A generation consumption).

Definition get_grid_export (generation consumption : num) : num :=
  safe_num A (py_max A zero (sub A generation consumption)).

(** [get_energy_source_breakdown]: the body of the [try] ... *)
Definition source_breakdown_body (generation consumption : num)
    : option (breakdown A) :=
  let total_power := py_max A generation consumption in
  if leb A total_power zero then Some (MkBreakdown zero zero)
  else
    match py_div A generation total_power with
    | None => None
    | Some share =>
        let solar_percentage := mul A share (of_Z A 100) in
        let grid_percentage : option num :=
          if ltb A generation consumption
          then match py_div A (sub A consumption generation) total_power with
               | None => None
               | Some r => Some (mul A (py_max A zero r) (of_Z A 100))
               end
          else Some zero in
        match grid_percentage with
        | None => None
        | Some g =>
            Some (MkBreakdown (safe_num A solar_percentage) (safe_num A g))
        end
    end.

(** ... and the function with its [except] branch. *)
Definition get_energy_source_breakdown (generation consumption : num)
    : breakdown A :=
  default (MkBreakdown zero zero) (source_breakdown_body generation consumption).

(** [_calculate_efficiency] *)
Definition _calculate_efficiency (generation consumption : num) : option num :=
  if leb A consumption zero then Some zero
  else
    match py_div A generation consumption with
    | None => None
    | Some efficiency => Some (safe_num A (py_min A (of_Z A 1) efficiency))
    end.

(** The derived column of [load_solar_plant_data]:
    [(AC_POWER / DC_POWER).fillna(0)], one row at a time.  The division is
    the element-wise IEEE one; [fillna] replaces NaN only. *)
Definition fillna0 (x : num) : num := if eqb A x x then x else zero.

Definition efficiency (ac_power dc_power : num) : num :=
  fillna0 (div A ac_power dc_power).

(** The value each region contributes to a record's regional demand:
    [value is not None and not (isinstance(value, float) and value != value)]
    guards [regional_demand += float(value)]. *)
Definition region_term (period_data : row A) (region : string) : option num :=
  match get0 period_data region with
  | PNone => None
  | PInt z => Some (of_Z A z)
  | PFloat x => if eqb A x x then Some x else None
  end.

(** The inner loop over the regions. *)
Definition regional_demand (period_data : row A) : num :=
  foldl (fun acc region =>
           match region_term period_data region with
           | Some x => add A acc x
           | None => acc
           end) zero regions.

(** The outer loop: [(total_demand_mw, valid_periods)]. *)
Definition accumulate_periods (hour_data : list (row A)) : num * Z :=
  foldl (fun '(total_demand_mw, valid_periods) period_data =>
           let rd := regional_demand period_data in
           if ltb A zero rd
           then (add A total_demand_mw rd, valid_periods + 1)
           else (total_demand_mw, valid_periods))
        (zero, 0) hour_data.

(** The loop of [_interpolate_consumption] over the sorted hours:
    [(before_hour, after_hour)], leaving at the [break]. *)
Fixpoint scan_hours (target_hour : Z) (available_hours : list Z)
    (before_hour after_hour : option Z) : option Z * option Z :=
  match available_hours with
  | [] => (before_hour, after_hour)
  | h :: rest =>
      if (h <? target_hour)%Z
      then scan_hours target_hour rest (Some h) after_hour
      else if (target_hour <? h)%Z && negb (bool_decide (is_Some after_hour))
           then (before_hour, Some h)
           else scan_hours target_hour rest before_hour after_hour
  end.

(** [sorted([d.get('hour', 0) for d in demand_data
             if d.get('hour') is not None])] *)
Definition available_hours (demand : list (row A)) : list Z :=
  merge_sort Z.le (omap hour demand).
End PureMetrics.

Arguments list_empty {X} l.
Arguments at_hour {A} h d.
Arguments get0 {A} d key.
Arguments available_hours {A} demand.

(* ===================================================================== *)
(** ** The configuration document *)
(* ===================================================================== *)

(** A decimal constant of the source as numerator and denominator. *)
Definition dec : Type := (Z * Z)%type.

(** One [Field(default=..., ge=..., le=...)] declaration. *)
Record field_spec : Type := MkField {
  f_name    : string;
  f_default : dec;
  f_ge      : option dec;
  f_le      : option dec
}.

Definition bounded (name : string) (d lo hi : dec) : field_spec :=
  MkField name d (Some lo) (Some hi).
Definition calculated (name : string) (d : dec) : field_spec :=
  MkField name d None None.

(** [CommunityConfigDocument], field by field in declaration order.  The
    metadata attributes ([id], [created_at], [updated_at], [version]) carry
    no number and are kept out of the table. *)
Definition document_schema : list field_spec :=
  [ bounded "total_households" (500, 1) (1, 1) (10000, 1);
    bounded "average_household_size" (5, 2) (1, 1) (10, 1);
    calculated "total_population" (1250, 1);
    MkField "households_with_solar" (300, 1) (Some (0, 1)) None;
    bounded "average_solar_capacity_per_household" (8, 1) (0, 1) (50, 1);
    calculated "total_solar_capacity" (2400, 1);
    bounded "solar_panel_efficiency" (1, 5) (1, 10) (1, 2);
    bounded "solar_panel_area_per_household" (40, 1) (0, 1) (200, 1);
    calculated "total_solar_area" (12000, 1);
    bounded "average_household_consumption" (7, 2) (0, 1) (20, 1);
    bounded "peak_household_consumption" (7, 1) (0, 1) (50, 1);
    calculated "total_community_consumption" (1750, 1);
    bounded "regional_to_community_scaling" (1, 10000) (1, 100000) (1, 100);
    bounded "demand_scaling_factor" (1, 4) (1, 100) (1, 1);
    bounded "generation_scaling_factor" (1, 1) (1, 10) (5, 1);
    bounded "grid_import_capacity" (2000, 1) (0, 1) (10000, 1);
    bounded "grid_export_capacity" (1500, 1) (0, 1) (10000, 1);
    bounded "grid_stability_threshold" (9, 10) (1, 2) (1, 1);
    bounded "battery_capacity_per_household" (10, 1) (0, 1) (100, 1);
    calculated "total_battery_capacity" (5000, 1);
    bounded "battery_efficiency" (95, 100) (1, 2) (1, 1);
    bounded "trading_volume_percentage" (1, 10) (0, 1) (1, 1);
    bounded "price_fluctuation_range" (12, 100) (0, 1) (1, 1);
    bounded "average_energy_price" (1, 4) (0, 1) (2, 1);
    bounded "battery_distribution_north" (4, 10) (0, 1) (1, 1);
    bounded "battery_distribution_south" (35, 100) (0, 1) (1, 1);
    bounded "battery_distribution_center" (1, 4) (0, 1) (1, 1);
    bounded "contribution_tier_gold" (15, 100) (0, 1) (1, 1);
    bounded "contribution_tier_silver" (35, 100) (0, 1) (1, 1);
    bounded "contribution_tier_bronze" (1, 2) (0, 1) (1, 1);
    bounded "mock_trader_volume" (1500, 1) (0, 1) (10000, 1);
    bounded "mock_solar_farm_production" (2500, 1) (0, 1) (10000, 1);
    bounded "mock_efficiency_high" (95, 100) (0, 1) (1, 1);
    bounded "mock_efficiency_medium" (92, 100) (0, 1) (1, 1);
    bounded "mock_carbon_offset" (500, 1) (0, 1) (10000, 1);
    bounded "fallback_regional_scaling" (1, 1000) (1, 10000) (1, 100) ]%string.

(** [CommunityConfigUpdate] of the router: the fields a request may carry,
    in declaration order, each [Optional] with the document's bounds.  The
    calculated fields and [generation_scaling_factor] are not declared. *)
Definition update_schema : list field_spec :=
  [ bounded "total_households" (500, 1) (1, 1) (10000, 1);
    bounded "average_household_size" (5, 2) (1, 1) (10, 1);
    MkField "households_with_solar" (300, 1) (Some (0, 1)) None;
    bounded "average_solar_capacity_per_household" (8, 1) (0, 1) (50, 1);
    bounded "solar_panel_efficiency" (1, 5) (1, 10) (1, 2);
    bounded "solar_panel_area_per_household" (40, 1) (0, 1) (200, 1);
    bounded "average_household_consumption" (7, 2) (0, 1) (20, 1);
    bounded "peak_household_consumption" (7, 1) (0, 1) (50, 1);
    bounded "regional_to_community_scaling" (1, 10000) (1, 100000) (1, 100);
    bounded "demand_scaling_factor" (1, 4) (1, 100) (1, 1);
    bounded "grid_import_capacity" (2000, 1) (0, 1) (10000, 1);
    bounded "grid_export_capacity" (1500, 1) (0, 1) (10000, 1);
    bounded "grid_stability_threshold" (9, 10) (1, 2) (1, 1);
    bounded "battery_capacity_per_household" (10, 1) (0, 1) (100, 1);
    bounded "battery_efficiency" (95, 100) (1, 2) (1, 1);
    bounded "trading_volume_percentage" (1, 10) (0, 1) (1, 1);
    bounded "price_fluctuation_range" (12, 100) (0, 1) (1, 1);
    bounded "average_energy_price" (1, 4) (0, 1) (2, 1);
    bounded "battery_distribution_north" (4, 10) (0, 1) (1, 1);
    bounded "battery_distribution_south" (35, 100) (0, 1) (1, 1);
    bounded "battery_distribution_center" (1, 4) (0, 1) (1, 1);
    bounded "contribution_tier_gold" (15, 100) (0, 1) (1, 1);
    bounded "contribution_tier_silver" (35, 100) (0, 1) (1, 1);
    bounded "contribution_tier_bronze" (1, 2) (0, 1) (1, 1);
    bounded "mock_trader_volume" (1500, 1) (0, 1) (10000, 1);
    bounded "mock_solar_farm_production" (2500, 1) (0, 1) (10000, 1);
    bounded "mock_efficiency_high" (95, 100) (0, 1) (1, 1);
    bounded "mock_efficiency_medium" (92, 100) (0, 1) (1, 1);
    bounded "mock_carbon_offset" (500, 1) (0, 1) (10000, 1);
    bounded "fallback_regional_scaling" (1, 1000) (1, 10000) (1, 100) ]%string.

(** Attributes [update_and_calculate] never assigns, and the metadata
    attributes an instance has besides its numeric fields. *)
Definition protected_keys : list string := ["id"; "created_at"; "version"]%string.
Definition metadata_keys : list string :=
  ["id"; "created_at"; "updated_at"; "version"]%string.

(** What the code raises. *)
Inductive exn : Type :=
  | ValueError (msg : string)
  | ConnectionError
  | ZeroDivisionError
  | TypeError
  | HTTPException (status_code : Z).

Inductive res (X : Type) : Type :=
  | Ok (x : X)
  | Raise (e : exn).
Arguments Ok {X} x.
Arguments Raise {X} e.

(** An HTTP answer of the configuration router. *)
Inductive response (A : Arith) : Type :=
  | Http200 (config : gmap string (num A))
  | Http400 (detail : string)
  | Http422 (fields : list string)
  | Http500.
Arguments Http200 {A} config.
Arguments Http400 {A} detail.
Arguments Http422 {A} fields.
Arguments Http500 {A}.

(** The process state: the Python objects of class
    [CommunityConfigDocument] (a reference is an index into [heap]), the
    MongoDB singleton, the manager's [_config_cache] and the presentation
    service's [_config]. *)
Record world (A : Arith) : Type := MkWorld {
  heap          : list (gmap string (num A));
  db_up         : bool;
  db_doc        : option (gmap string (num A));
  _config_cache : option nat;
  svc_config    : option nat
}.
Arguments MkWorld {A} _ _ _ _ _.
Arguments heap {A} w.
Arguments db_up {A} w.
Arguments db_doc {A} w.
Arguments _config_cache {A} w.
Arguments svc_config {A} w.

(** State and exceptions. *)
Definition M (A : Arith) (X : Type) : Type := world A -> res X * world A.

Definition ret {A X} (x : X) : M A X := fun w => (Ok x, w).
Definition raise {A X} (e : exn) : M A X := fun w => (Raise e, w).
Definition bind {A X Y} (c : M A X) (k : X -> M A Y) : M A Y :=
  fun w => match c w with
           | (Ok x, w') => k x w'
           | (Raise e, w') => (Raise e, w')
           end.

Notation "x <~ c ;; k" := (bind c (fun x => k))
  (at level 100, c at next level, right associativity).
Notation "c ;;; k" := (bind c (fun _ => k))
  (at level 100, right associativity).

(** An operation that raises [e] when it has no value. *)
Definition lift_opt {A X} (e : exn) (o : option X) : M A X :=
  match o with Some x => ret x | None => raise e end.

(* ===================================================================== *)
(** ** The configuration manager *)
(* ===================================================================== *)

Section ConfigManager.
Context (A : Arith).
Local Abbreviation num := (num A).
Local Abbreviation zero := (zero A).
Local Abbreviation document := (gmap string num).

Definition dec_value (d : dec) : num := lit A (fst d) (snd d).

(** The [ge] and [le] constraints of a field on a supplied value, as
    pydantic checks them: the value fails unless the comparison holds. *)
Definition in_bounds (spec : field_spec) (v : num) : bool :=
  match f_ge spec with Some lo => leb A (dec_value lo) v | None => true end
  && match f_le spec with Some hi => leb A v (dec_value hi) | None => true end.

(** [CommunityConfigDocument()] *)
Definition default_document : document :=
  list_to_map (map (fun spec => (f_name spec, dec_value (f_default spec)))
                   document_schema).

(** The document built from the stored one ([CommunityConfigDocument] applied
    to the keys of [config_doc]): every declared field takes the
    stored value or its default, a stored value outside its bounds fails
    the construction, other keys of the stored document are ignored. *)
Definition construct_document (config_doc : document) : option document :=
  if forallb (fun spec => match config_doc !! f_name spec with
                          | Some v => in_bounds spec v
                          | None => true
                          end) document_schema
  then Some (list_to_map
               (map (fun spec =>
                       (f_name spec,
                        default (dec_value (f_default spec))
                                (config_doc !! f_name spec)))
                    document_schema))
  else None.

(** [config.<name>] *)
Definition attr (config : document) (name : string) : num :=
  default zero (config !! name).

(** [calculate_derived_values] *)
Definition calculate_derived_values (c : document) : document :=
  let c1 := <["total_population" :=
               of_Z A (trunc A (mul A (attr c "total_households")
                                      (attr c "average_household_size")))]> c in
  let c2 := <["total_solar_capacity" :=
               mul A (attr c1 "households_with_solar")
                     (attr c1 "average_solar_capacity_per_household")]> c1 in
  let c3 := <["total_solar_area" :=
               mul A (attr c2 "households_with_solar")
                     (attr c2 "solar_panel_area_per_household")]> c2 in
  let c4 := <["total_community_consumption" :=
               mul A (attr c3 "total_households")
                     (attr c3 "average_household_consumption")]> c3 in
  <["total_battery_capacity" :=
     mul A (attr c4 "total_households")
           (attr c4 "battery_capacity_per_household")]> c4.

Definition mem (key : string) (keys : list string) : bool :=
  bool_decide (key ∈ keys).

(** [hasattr(self, key)]: the fields and the metadata attributes.  (A
    method name also answers true in Python; assigning it raises
    [ValueError] as an unknown key does.) *)
Definition hasattr (c : document) (key : string) : bool :=
  bool_decide (is_Some (c !! key)) || mem key metadata_keys.

(** [setattr(self, key, value)]; the timestamp [updated_at] is not among
    the numeric fields. *)
Definition setattr (c : document) (key : string) (value : num) : document :=
  if mem key metadata_keys then c else <[key := value]> c.

(** The loop of [update_and_calculate] over [kwargs.items()]: the document
    as assigned so far, and the exception that stopped the loop if any. *)
Fixpoint assign_all (c : document) (kwargs : list (string * num))
    : document * option exn :=
  match kwargs with
  | [] => (c, None)
  | (key, value) :: rest =>
      if hasattr c key && negb (mem key protected_keys)
      then assign_all (setattr c key value) rest
      else if negb (mem key protected_keys)
           then (c, Some (ValueError ("Invalid configuration parameter: " +:+ key)))
           else assign_all c rest
  end.

(** Heap access. *)
Definition alloc (c : document) : M A nat :=
  fun w => (Ok (length (heap w)),
            MkWorld (heap w ++ [c]) (db_up w) (db_doc w)
                    (_config_cache w) (svc_config w)).

Definition deref (l : nat) : M A document :=
  fun w => (Ok (default ∅ (heap w !! l)), w).

Definition store (l : nat) (c : document) : M A unit :=
  fun w => (Ok tt,
            MkWorld (<[l := c]> (heap w)) (db_up w) (db_doc w)
                    (_config_cache w) (svc_config w)).

(** [update_and_calculate] on the object at [self]: the assignments made
    before an invalid key stay made. *)
Definition update_and_calculate (self : nat) (kwargs : list (string * num))
    : M A unit :=
  c <~ deref self ;;
  match assign_all c kwargs with
  | (c', Some e) => store self c' ;;; raise e
  | (c', None) => store self (calculate_derived_values c')
  end.

(** [_save_config]: the upsert [$set]s every field of the document. *)
Definition _save_config (config : document) : M A unit :=
  fun w =>
    if db_up w
    then (Ok tt,
          MkWorld (heap w) (db_up w)
                  (Some (config ∪ default ∅ (db_doc w)))
                  (_config_cache w) (svc_config w))
    else (Raise ConnectionError, w).

(** [_load_config]: a reference to a new object.  Every failure inside
    ends in [return CommunityConfigDocument()]. *)
Definition _load_config : M A nat :=
  fun w =>
    if db_up w
    then match db_doc w with
         | Some config_doc =>
             match construct_document config_doc with
             | Some config => alloc config w
             | None => alloc default_document w
             end
         | None =>
             (default_config <~ alloc default_document ;;
              _save_config default_document ;;;
              ret default_config) w
         end
    else alloc default_document w.

Definition set_cache (l : nat) : M A unit :=
  fun w => (Ok tt, MkWorld (heap w) (db_up w) (db_doc w) (Some l) (svc_config w)).

(** [CommunityConfigManager.get_config] *)
Definition get_config : M A nat :=
  fun w =>
    match _config_cache w with
    | Some l => (Ok l, w)
    | None => (l <~ _load_config ;; set_cache l ;;; ret l) w
    end.

(** [CommunityConfigManager.update_config]; its [except] re-raises. *)
Definition update_config (kwargs : list (string * num)) : M A unit :=
  config <~ get_config ;;
  update_and_calculate config kwargs ;;;
  c <~ deref config ;;
  _save_config c ;;;
  set_cache config.

(** [CommunityConfigManager.reset_config] *)
Definition reset_config : M A unit :=
  default_config <~ alloc default_document ;;
  _save_config default_document ;;;
  set_cache default_config.

(** [get_community_metrics], the one entry that divides. *)
Definition solar_coverage_percentage : M A num :=
  config <~ get_config ;;
  c <~ deref config ;;
  share <~ lift_opt ZeroDivisionError
             (py_div A (attr c "households_with_solar")
                       (attr c "total_households")) ;;
  ret (mul A share (of_Z A 100)).

(* --------------------------------------------------------------------- *)
(** *** The update endpoint *)

(** The two [@validator]s of [CommunityConfigUpdate], run on a value that
    passed its bounds, against the fields validated before it. *)
Definition cross_check (name : string) (v : num) (values : document) : bool :=
  if String.eqb name "households_with_solar"
  then match values !! "total_households" with
       | Some t => negb (ltb A t v)
       | None => true
       end
  else if String.eqb name "peak_household_consumption"
  then match values !! "average_household_consumption" with
       | Some a => negb (ltb A v a)
       | None => true
       end
  else true.

(** Validation of a request body against a schema: the fields in error.
    [body] holds the numbers the request supplies (a null or absent field is
    not supplied; keys outside the schema are ignored). *)
Fixpoint validate_fields (schema : list field_spec) (body values : document)
    : list string :=
  match schema with
  | [] => []
  | spec :: rest =>
      match body !! f_name spec with
      | None => validate_fields rest body values
      | Some v =>
          if in_bounds spec v && cross_check (f_name spec) v values
          then validate_fields rest body (<[f_name spec := v]> values)
          else f_name spec :: validate_fields rest body values
      end
  end.

Definition validate_update (body : document) : list string :=
  validate_fields update_schema body ∅.

(** [{k: v for k, v in config_update.dict().items() if v is not None}] *)
Definition update_data (body : document) : list (string * num) :=
  omap (fun spec => match body !! f_name spec with
                    | Some v => Some (f_name spec, v)
                    | None => None
                    end) update_schema.

(** [PUT /config].  A body that fails validation is answered 422 before the
    handler runs.  Inside the handler, [except ValueError] answers 400 and
    [except Exception] answers 500 (the handler's own 400 for an empty
    update is raised inside the [try] and leaves through the latter). *)
Definition update_community_config (body : document)
    : world A -> response A * world A :=
  fun w =>
    match validate_update body with
    | (_ :: _) as errors => (Http422 errors, w)
    | [] =>
        let handler : M A document :=
          (if list_empty (update_data body)
           then raise (HTTPException 400)
           else ret tt) ;;;
          update_config (update_data body) ;;;
          config <~ get_config ;;
          solar_coverage_percentage ;;;
          deref config in
        match handler w with
        | (Ok c, w') => (Http200 c, w')
        | (Raise (ValueError msg), w') => (Http400 msg, w')
        | (Raise _, w') => (Http500, w')
        end
    end.
End ConfigManager.

(* ===================================================================== *)
(** ** The presentation service: consumption *)
(* ===================================================================== *)

Section Consumption.
Context (A : Arith).
Local Abbreviation num := (num A).
Local Abbreviation zero := (zero A).

Definition set_svc_config (l : nat) : M A unit :=
  fun w => (Ok tt, MkWorld (heap w) (db_up w) (db_doc w) (_config_cache w) (Some l)).

(** [DataPresentationService._get_config]: the reference is fetched from
    the manager once and kept in [self._config]. *)
Definition _get_config : M A nat :=
  fun w =>
    match svc_config w with
    | Some l => (Ok l, w)
    | None => (l <~ get_config A ;; set_svc_config l ;;; ret l) w
    end.

(** The tail shared by the consumption functions, from
    [if valid_periods > 0:] on, reading the scaling attribute [key] of the
    configuration at that point. *)
Definition scaled_average (key : string) (totals : num * Z) : M A num :=
  let '(total_demand_mw, valid_periods) := totals in
  if (0 <? valid_periods)%Z
  then
    avg_demand_mw <~ lift_opt ZeroDivisionError
                       (py_div A total_demand_mw (of_Z A valid_periods)) ;;
    config <~ _get_config ;;
    c <~ deref A config ;;
    ret (safe_num A (mul A (mul A avg_demand_mw (of_Z A 1000)) (attr A c key)))
  else ret zero.

(** [_get_hour_consumption] *)
Definition _get_hour_consumption (h : Z) (demand : list (row A)) : M A num :=
  let hour_data := filter (fun d => at_hour h d = true) demand in
  if list_empty hour_data then ret zero
  else scaled_average "regional_to_community_scaling"
                      (accumulate_periods A hour_data).

(** [_interpolate_consumption] *)
Definition _interpolate_consumption (target_hour : Z) (demand : list (row A))
    : M A num :=
  let hours := available_hours demand in
  if list_empty hours then ret zero
  else
    match scan_hours target_hour hours None None with
    | (None, Some after_hour) => _get_hour_consumption after_hour demand
    | (Some before_hour, None) => _get_hour_consumption before_hour demand
    | (None, None) => ret zero
    | (Some before_hour, Some after_hour) =>
        before_consumption <~ _get_hour_consumption before_hour demand ;;
        after_consumption <~ _get_hour_consumption after_hour demand ;;
        if (after_hour =? before_hour)%Z then ret before_consumption
        else
          weight <~ lift_opt ZeroDivisionError
                      (py_div A (of_Z A (target_hour - before_hour))
                                (of_Z A (after_hour - before_hour))) ;;
          ret (safe_num A
                 (add A before_consumption
                        (mul A weight (sub A after_consumption before_consumption))))
    end.

(** The body of the [try] of [get_current_consumption] ... *)
Definition current_consumption_body (data : dataset A) (current_hour : Z)
    : M A num :=
  let demand := demand_data data in
  if list_empty demand then ret zero
  else
    let current_hour_data :=
      filter (fun d => at_hour current_hour d = true) demand in
    if list_empty current_hour_data
    then _interpolate_consumption current_hour demand
    else scaled_average "regional_to_community_scaling"
                        (accumulate_periods A current_hour_data).

(** ... and [get_current_consumption], whose [except] answers 0.0;
    [current_hour] stands for [datetime.now().hour]. *)
Definition get_current_consumption (data : dataset A) (current_hour : Z)
    : world A -> num * world A :=
  fun w =>
    match current_consumption_body data current_hour w with
    | (Ok x, w') => (x, w')
    | (Raise _, w') => (zero, w')
    end.

(** [_calculate_real_consumption], the variant behind the energy-flow
    history: the same steps with [fallback_regional_scaling]. *)
Definition _calculate_real_consumption (h : Z) (demand : list (row A))
    : M A num :=
  if list_empty demand then ret zero
  else
    let current_hour_data := filter (fun d => at_hour h d = true) demand in
    if list_empty current_hour_data
    then _interpolate_consumption h demand
    else scaled_average "fallback_regional_scaling"
                        (accumulate_periods A current_hour_data).

(** A process that has just started, with an empty and reachable store. *)
Definition fresh_world : world A := MkWorld [] true None None None.

(** The document a service call reads in [w]: the one [_get_config]
    returns there. *)
Definition config_read (w : world A) : gmap string num :=
  match _get_config w with
  | (Ok l, w') => default ∅ (heap w' !! l)
  | (Raise _, _) => ∅
  end.

(** The document the manager holds in [w], if it has loaded one. *)
Definition manager_document (w : world A) : option (gmap string num) :=
  match _config_cache w with
  | Some l => heap w !! l
  | None => None
  end.
End Consumption.

(* ===================================================================== *)
(** ** Reference definitions *)
(* ===================================================================== *)

(** What the statements below compare the code with. *)

Definition qc_max (a b : Qc) : Qc := if qc_ltb a b then b else a.
Definition hundred : Qc := qc_of_Z 100.
Definition thousand : Qc := qc_of_Z 1000.

(** The rational a binary64 number stands for (0 for NaN and infinities). *)
Definition b64_to_Q (x : float) : Q :=
  match Prim2SF x with
  | S754_finite s m e =>
      let a := if (0 <=? e)%Z then inject_Z (Z.shiftl (Zpos m) e)
               else Qmake (Zpos m) (Z.to_pos (Z.shiftl 1 (- e))) in
      if s then Qopp a else a
  | _ => 0%Q
  end.

Section Reference.
Context (A : Arith).
Local Abbreviation num := (num A).
Local Abbreviation zero := (zero A).

(** The mean of a list, 0 for the empty list. *)
Definition average (xs : list num) : num :=
  if list_empty xs then zero
  else div A (py_sum A xs) (of_Z A (Z.of_nat (length xs))).

(** The AC power of the rows of a plant with [hour == h] and
    [AC_POWER > 0]. *)
Definition qualifying_powers (h : Z) (rows : list (row A)) : list num :=
  omap (fun d =>
          if at_hour h d && default false (gt0 A (get0 d "AC_POWER"))
          then to_float A (get0 d "AC_POWER")
          else None) rows.

(** Current generation as the specification words it: the sum over the two
    plants of the average qualifying power, a plant without qualifying rows
    contributing 0. *)
Definition claimed_generation (data : dataset A) (h : Z) : num :=
  add A (average (qualifying_powers h (plant_1_hourly data)))
        (average (qualifying_powers h (plant_2_hourly data))).

(** No AC power of the series is null. *)
Definition is_null (v : pyval A) : bool :=
  match v with PNone => true | _ => false end.

Definition numeric_powers (rows : list (row A)) : Prop :=
  Forall (fun d => is_null (get0 d "AC_POWER") = false) rows.

(** A region value that counts: neither null nor NaN. *)
Definition counted_value (v : pyval A) : option num :=
  match v with
  | PNone => None
  | PInt z => Some (of_Z A z)
  | PFloat x => if eqb A x x then Some x else None
  end.

(** A record's regional demand: the sum of the region values that are
    present and count. *)
Definition regional_demand_sum (d : row A) : num :=
  py_sum A (omap (fun region => cols d !! region ≫= counted_value) regions).

(** The regional demands kept for hour [h]: those of the matching records
    that are positive. *)
Definition kept_demands (h : Z) (demand : list (row A)) : list num :=
  filter (fun x => ltb A zero x = true)
         (map regional_demand_sum (filter (fun d => at_hour h d = true) demand)).

Definition avg_MW (h : Z) (demand : list (row A)) : num :=
  average (kept_demands h demand).

(** Every region value of the record is null or NaN. *)
Definition null_or_nan (v : pyval A) : bool :=
  match v with
  | PNone => true
  | PInt _ => false
  | PFloat x => negb (eqb A x x)
  end.

Definition all_regions_void (d : row A) : bool :=
  forallb (fun region => match cols d !! region with
                         | Some v => null_or_nan v
                         | None => true
                         end) regions.

(** The hours that have data, and the nearest ones around a target. *)
Definition hours_with_data (demand : list (row A)) : list Z := omap hour demand.

Definition nearest_below (demand : list (row A)) (target b : Z) : Prop :=
  b ∈ hours_with_data demand /\ (b < target)%Z
  /\ forall h, h ∈ hours_with_data demand -> (h < target)%Z -> (h <= b)%Z.

Definition nearest_above (demand : list (row A)) (target a : Z) : Prop :=
  a ∈ hours_with_data demand /\ (target < a)%Z
  /\ forall h, h ∈ hours_with_data demand -> (target < h)%Z -> (a <= h)%Z.

(** The values the consumption functions compute once the configuration
    document [c] is at hand: the same steps without the state. *)
Definition scaled_value (c : gmap string num) (key : string)
    (totals : num * Z) : num :=
  let '(total_demand_mw, valid_periods) := totals in
  if (0 <? valid_periods)%Z
  then safe_num A
         (mul A (mul A (div A total_demand_mw (of_Z A valid_periods))
                       (of_Z A 1000))
                (attr A c key))
  else zero.

Definition hour_value (c : gmap string num) (h : Z) (demand : list (row A)) : num :=
  let hour_data := filter (fun d => at_hour h d = true) demand in
  if list_empty hour_data then zero
  else scaled_value c "regional_to_community_scaling"
                    (accumulate_periods A hour_data).

Definition interpolated_value (c : gmap string num) (target_hour : Z)
    (demand : list (row A)) : num :=
  let hours := available_hours demand in
  if list_empty hours then zero
  else
    match scan_hours target_hour hours None None with
    | (None, Some after_hour) => hour_value c after_hour demand
    | (Some before_hour, None) => hour_value c before_hour demand
    | (None, None) => zero
    | (Some before_hour, Some after_hour) =>
        let before_consumption := hour_value c before_hour demand in
        let after_consumption := hour_value c after_hour demand in
        if (after_hour =? before_hour)%Z then before_consumption
        else safe_num A
               (add A before_consumption
                  (mul A (div A (of_Z A (target_hour - before_hour))
                                (of_Z A (after_hour - before_hour)))
                         (sub A after_consumption before_consumption)))
    end.

Definition consumption_value (c : gmap string num) (data : dataset A)
    (current_hour : Z) : num :=
  let demand := demand_data data in
  if list_empty demand then zero
  else
    let current_hour_data :=
      filter (fun d => at_hour current_hour d = true) demand in
    if list_empty current_hour_data
    then interpolated_value c current_hour demand
    else scaled_value c "regional_to_community_scaling"
                      (accumulate_periods A current_hour_data).

(** [w'] is [w], or [w] after the service has fetched its configuration. *)
Definition settled (w w' : world A) : Prop :=
  w' = w \/ w' = snd (_get_config A w).

(** What [_get_hour_consumption] answers in [w]. *)
Definition hour_consumption (w : world A) (demand : list (row A)) (h : Z) : num :=
  match _get_hour_consumption A h demand w with
  | (Ok x, _) => x
  | (Raise _, _) => zero
  end.

(** The references held in [w] are live, and the service holds no
    document other than the manager's. *)
Definition coherent (w : world A) : Prop :=
  (forall l, _config_cache w = Some l -> (l < length (heap w))%nat)
  /\ (forall l, svc_config w = Some l -> _config_cache w = Some l).

(** A query answered against one given document. *)
Definition consumption_with (c : gmap string num) (data : dataset A) (h : Z) : num :=
  fst (get_current_consumption A data h
         (MkWorld [c] true (Some c) (Some 0%nat) (Some 0%nat))).

(** The fields a 422 answer names. *)
Definition rejected_fields (r : response A) : option (list string) :=
  match r with Http422 fields => Some fields | _ => None end.

(** A value outside the bounds its field declares. *)
Definition out_of_bounds (spec : field_spec) (v : num) : Prop :=
  in_bounds A spec v = false.
End Reference.

(* ===================================================================== *)
(** ** Example data *)
(* ===================================================================== *)

Section Examples.
Context (A : Arith).

(** A demand record of hour [h] with one region reporting [mw] MW. *)
Definition demand_row (h mw : Z) : row A :=
  MkRow (Some h) {[ "North"%string := PFloat (of_Z A mw) ]}.

(** A solar record of hour [h] with AC power [p]. *)
Definition solar_row (h p : Z) : row A :=
  MkRow (Some h) {[ "AC_POWER"%string := PFloat (of_Z A p) ]}.

(** Demand at hours 6 and 10 worth 100 kW and 200 kW under the default
    scaling 0.0001. *)
Definition demand_6_10 : dataset A :=
  MkData [] [] [demand_row 6 1000; demand_row 10 2000].

Definition demand_10 : dataset A :=
  MkData [] [] [demand_row 10 2000].

(** Plant 1 reports 100 kW at noon; plant 2 has no hourly series. *)
Definition one_plant : dataset A :=
  MkData [solar_row 12 100] [] [].

(** Demand records whose region values are all null or NaN. *)
Definition void_row (h : Z) (nan : num A) : row A :=
  MkRow (Some h)
        (list_to_map (map (fun region => (region, PNone)) regions)
         ∪ {[ "Total Italy"%string := PFloat nan ]}).

Definition nan_row (h : Z) (nan : num A) : row A :=
  MkRow (Some h) (list_to_map (map (fun region => (region, PFloat nan)) regions)).

Definition void_demand (nan : num A) : dataset A :=
  MkData [] [] [void_row 6 nan; nan_row 6 nan; nan_row 10 nan].

Definition two_plants : dataset A :=
  MkData [solar_row 12 100; solar_row 12 0; solar_row 12 300; solar_row 13 50]
         [solar_row 12 40; solar_row 11 7] [].
End Examples.

(* ===================================================================== *)
(** ** Exact arithmetic *)
(* ===================================================================== *)

(** Splitting a conjunction without touching its components. *)
Ltac split_all := repeat match goal with |- _ /\ _ => split end.

Lemma qc_ltb_lt (a b : Qc) : qc_ltb a b = true <-> (a < b)%Qc.
Proof.
  unfold qc_ltb. rewrite Qclt_alt. destruct (a ?= b)%Qc; split; congruence.
Qed.

Lemma qc_eqb_eq (a b : Qc) : qc_eqb a b = true <-> a = b.
Proof.
  unfold qc_eqb. rewrite Qceq_alt. destruct (a ?= b)%Qc; split; congruence.
Qed.

Lemma qc_leb_le (a b : Qc) : qc_leb a b = true <-> (a <= b)%Qc.
Proof.
  unfold qc_leb. rewrite Qcle_alt. destruct (a ?= b)%Qc; split; congruence.
Qed.

Lemma qc_ltb_nlt (a b : Qc) : qc_ltb a b = false <-> (b <= a)%Qc.
Proof.
  rewrite <- not_true_iff_false, qc_ltb_lt. split.
  - apply Qcnot_lt_le.
  - intros H1 H2. exact (Qcle_not_lt _ _ H1 H2).
Qed.

Lemma qc_eqb_refl (a : Qc) : qc_eqb a a = true.
Proof. now apply qc_eqb_eq. Qed.

Lemma qc_eqb_neq (a b : Qc) : qc_eqb a b = false <-> a <> b.
Proof. rewrite <- not_true_iff_false, qc_eqb_eq. tauto. Qed.

Lemma xleb_fin (a b : Qc) : xleb (Fin a) (Fin b) = qc_leb a b.
Proof.
  unfold xleb, xltb, xeqb, qc_ltb, qc_eqb, qc_leb.
  now destruct (a ?= b)%Qc.
Qed.

Lemma qc_of_Z_stdpp (z : Z) : qc_of_Z z = Qc_of_Z z.
Proof.
  apply Qc_is_canon. unfold qc_of_Z, Qc_of_Z. simpl. apply Qred_correct.
Qed.

Lemma safe_num_fin (q : Qc) : safe_num exact (Fin q) = Fin q.
Proof.
  unfold safe_num, _safe_float. simpl. now rewrite qc_eqb_refl.
Qed.

Lemma safe_num_finite (x : xfloat) : exists q, safe_num exact x = Fin q.
Proof.
  destruct x as [q| | |].
  - exists q. apply safe_num_fin.
  - now exists 0%Qc.
  - now exists 0%Qc.
  - now exists 0%Qc.
Qed.

(* ===================================================================== *)
(** ** Safe-float *)
(* ===================================================================== *)

(** Claim C9.  The safe-float normalisation answers 0.0 for null, NaN and
    the two infinities and is the identity on every other number: on every
    finite value of the exact model, on every int, and on every binary64
    number that equals itself and is neither infinity (3.5 among them). *)
Theorem safe_float_normalises :
  _safe_float exact PNone = Fin 0%Qc
  /\ _safe_float exact (PFloat (A:=exact) NaN) = Fin 0%Qc
  /\ _safe_float exact (PFloat (A:=exact) PInf) = Fin 0%Qc
  /\ _safe_float exact (PFloat (A:=exact) NInf) = Fin 0%Qc
  /\ (forall q : Qc, _safe_float exact (PFloat (A:=exact) (Fin q)) = Fin q)
  /\ (forall z : Z, _safe_float exact (PInt z) = Fin (qc_of_Z z))
  /\ _safe_float binary64 PNone = 0%float
  /\ _safe_float binary64 (PFloat (A:=binary64) nan) = 0%float
  /\ _safe_float binary64 (PFloat (A:=binary64) infinity) = 0%float
  /\ _safe_float binary64 (PFloat (A:=binary64) neg_infinity) = 0%float
  /\ _safe_float binary64 (PFloat (A:=binary64) 3.5%float) = 3.5%float
  /\ (forall x : float,
        PrimFloat.eqb x x = true ->
        PrimFloat.eqb x infinity = false ->
        PrimFloat.eqb x neg_infinity = false ->
        _safe_float binary64 (PFloat (A:=binary64) x) = x).
Proof.
  split_all; try reflexivity.
  - intros q. apply safe_num_fin.
  - intros x Hx Hp Hn. unfold _safe_float.
    change (eqb binary64 x x) with (PrimFloat.eqb x x).
    change (eqb binary64 x (pinf binary64)) with (PrimFloat.eqb x infinity).
    change (eqb binary64 x (ninf binary64)) with (PrimFloat.eqb x neg_infinity).
    now rewrite Hx, Hp, Hn.
Qed.

(* ===================================================================== *)
(** ** Source breakdown *)
(* ===================================================================== *)

Lemma qc_max_cases (a b : Qc) :
  (a <= qc_max a b)%Qc /\ (b <= qc_max a b)%Qc
  /\ (qc_max a b = a \/ qc_max a b = b).
Proof.
  unfold qc_max. destruct (qc_ltb a b) eqn:E.
  - apply qc_ltb_lt in E. repeat split; [now apply Qclt_le_weak|apply Qcle_refl|now right].
  - apply qc_ltb_nlt in E. repeat split; [apply Qcle_refl|exact E|now left].
Qed.

(** The operations of [exact] on finite values. *)
Lemma zero_exact : zero exact = Fin 0%Qc.
Proof. reflexivity. Qed.
Lemma qc_of_Z_0 : qc_of_Z 0 = 0%Qc.
Proof. reflexivity. Qed.
Lemma of_Z_exact (z : Z) : of_Z exact z = Fin (qc_of_Z z).
Proof. reflexivity. Qed.
Lemma add_fin (a b : Qc) : add exact (Fin a) (Fin b) = Fin (a + b)%Qc.
Proof. reflexivity. Qed.
Lemma sub_fin (a b : Qc) : sub exact (Fin a) (Fin b) = Fin (a - b)%Qc.
Proof. reflexivity. Qed.
Lemma mul_fin (a b : Qc) : mul exact (Fin a) (Fin b) = Fin (a * b)%Qc.
Proof. reflexivity. Qed.
Lemma ltb_fin (a b : Qc) : ltb exact (Fin a) (Fin b) = qc_ltb a b.
Proof. reflexivity. Qed.
Lemma eqb_fin (a b : Qc) : eqb exact (Fin a) (Fin b) = qc_eqb a b.
Proof. reflexivity. Qed.
Lemma leb_fin (a b : Qc) : leb exact (Fin a) (Fin b) = qc_leb a b.
Proof. apply xleb_fin. Qed.
Lemma div_fin (a b : Qc) :
  b <> 0%Qc -> div exact (Fin a) (Fin b) = Fin (a / b)%Qc.
Proof.
  intros Hb. apply qc_eqb_neq in Hb.
  change (div exact (Fin a) (Fin b)) with (xdiv (Fin a) (Fin b)).
  unfold xdiv. now rewrite Hb.
Qed.

Create Rewrite HintDb exact_arith.
#[local] Hint Rewrite zero_exact qc_of_Z_0 of_Z_exact add_fin sub_fin mul_fin
  ltb_fin eqb_fin leb_fin safe_num_fin : exact_arith.

Lemma py_max_fin (a b : Qc) : py_max exact (Fin a) (Fin b) = Fin (qc_max a b).
Proof.
  unfold py_max, qc_max. rewrite ltb_fin.
  destruct (qc_ltb a b); reflexivity.
Qed.

Lemma py_div_fin (a b : Qc) :
  b <> 0%Qc -> py_div exact (Fin a) (Fin b) = Some (Fin (a / b)%Qc).
Proof.
  intros Hb. unfold py_div. rewrite zero_exact, eqb_fin, div_fin by exact Hb.
  apply qc_eqb_neq in Hb. now rewrite Hb.
Qed.

Lemma qc_div_pos (a b : Qc) : (0 < a)%Qc -> (0 < b)%Qc -> (0 < a / b)%Qc.
Proof.
  intros Ha Hb. unfold Qcdiv. apply Qcmult_pos_pos; [exact Ha|now apply Qcinv_pos].
Qed.

Lemma qc_sub_pos (a b : Qc) : (a < b)%Qc -> (0 < b - a)%Qc.
Proof. intros H. now apply Qclt_minus_iff in H. Qed.

Lemma qc_pos_neq (a : Qc) : (0 < a)%Qc -> a <> 0%Qc.
Proof. intros H ->. now apply (Qclt_not_eq _ _ H). Qed.

Lemma breakdown_exact (generation consumption : Qc) :
  let total := qc_max generation consumption in
  get_energy_source_breakdown exact (Fin generation) (Fin consumption) =
  if qc_leb total 0%Qc
  then MkBreakdown (A:=exact) (Fin 0%Qc) (Fin 0%Qc)
  else MkBreakdown (A:=exact)
         (Fin (generation / total * hundred)%Qc)
         (if qc_ltb generation consumption
          then Fin ((consumption - generation) / total * hundred)%Qc
          else Fin 0%Qc).
Proof.
  intros total.
  unfold get_energy_source_breakdown, source_breakdown_body.
  rewrite py_max_fin. fold total.
  autorewrite with exact_arith.
  destruct (qc_leb total 0%Qc) eqn:Htot; [reflexivity|].
  assert (Hpos : (0 < total)%Qc).
  { apply Qcnot_le_lt. intros H. apply qc_leb_le in H. congruence. }
  pose proof (qc_pos_neq _ Hpos) as Hnz.
  rewrite py_div_fin by exact Hnz.
  destruct (qc_ltb generation consumption) eqn:Hlt.
  - rewrite py_div_fin by exact Hnz.
    assert (Hr : (0 < (consumption - generation) / total)%Qc).
    { apply qc_div_pos; [|exact Hpos]. apply qc_sub_pos. now apply qc_ltb_lt. }
    unfold py_max. autorewrite with exact_arith.
    apply qc_ltb_lt in Hr. rewrite Hr.
    autorewrite with exact_arith. reflexivity.
  - autorewrite with exact_arith. reflexivity.
Qed.


Lemma hundred_pos : (0 < hundred)%Qc.
Proof. apply qc_ltb_lt. reflexivity. Qed.

Lemma qc_share_bounds (a t : Qc) :
  (0 <= a)%Qc -> (a <= t)%Qc -> (0 < t)%Qc ->
  (0 <= a / t * hundred)%Qc /\ (a / t * hundred <= hundred)%Qc.
Proof.
  intros Ha Hat Ht.
  pose proof (Qclt_le_weak _ _ hundred_pos) as Hh.
  pose proof (Qclt_le_weak _ _ (Qcinv_pos _ Ht)) as Hinv.
  split.
  - apply Qcmult_nonneg_nonneg; [|exact Hh].
    unfold Qcdiv. now apply Qcmult_nonneg_nonneg.
  - rewrite <- (Qcmult_1_l hundred) at 2.
    apply Qcmult_le_mono_nonneg_r; [exact Hh|].
    rewrite <- (Qcmult_inv_r t) by now apply qc_pos_neq.
    unfold Qcdiv. now apply Qcmult_le_mono_nonneg_r.
Qed.




(* ===================================================================== *)
(** ** The derived efficiency column *)
(* ===================================================================== *)

(** Claim C6 on the code.  A row with AC_POWER = 5 and DC_POWER = 0 gets an
    infinite efficiency, in the exact model and on binary64 numbers:
    [fillna(0)] replaces NaN only, so with DC_POWER = 0 the efficiency is 0
    for AC_POWER = 0 and an infinity otherwise; with DC_POWER <> 0 it is
    the quotient. *)
Theorem efficiency_zero_dc_power :
  efficiency exact (Fin (qc_of_Z 5)) (Fin 0%Qc) = PInf
  /\ efficiency binary64 5%float 0%float = infinity
  /\ (forall ac : Qc,
        efficiency exact (Fin ac) (Fin 0%Qc) =
        if qc_eqb ac 0%Qc then Fin 0%Qc
        else if qc_ltb ac 0%Qc then NInf else PInf)
  /\ (forall ac dc : Qc,
        efficiency exact (Fin ac) (Fin dc) =
        if qc_eqb dc 0%Qc then efficiency exact (Fin ac) (Fin 0%Qc)
        else Fin (ac / dc)%Qc).
Proof.
  split; [reflexivity|]. split; [reflexivity|]. split.
  - intros ac. unfold efficiency, fillna0.
    change (div exact (Fin ac) (Fin 0%Qc)) with (xdiv (Fin ac) (Fin 0%Qc)).
    unfold xdiv. rewrite qc_eqb_refl.
    destruct (qc_eqb ac 0%Qc); [reflexivity|].
    destruct (qc_ltb ac 0%Qc); reflexivity.
  - intros ac dc. destruct (qc_eqb dc 0%Qc) eqn:E.
    + apply qc_eqb_eq in E. now subst.
    + unfold efficiency, fillna0. apply qc_eqb_neq in E.
      rewrite div_fin by exact E. rewrite eqb_fin, qc_eqb_refl. reflexivity.
Qed.

(* --------------------------------------------------------------------- *)
(** *** Closed computations *)

Lemma Fin_ext (a b : Qc) : Qeq_bool a b = true -> Fin a = Fin b.
Proof. intros H. f_equal. apply Qc_is_canon. now apply Qeq_bool_iff. Qed.

Ltac run_exact := vm_compute; first [reflexivity | apply Fin_ext; vm_compute; reflexivity].

Lemma qc_of_Z_eq0 (z : Z) : qc_of_Z z = 0%Qc <-> z = 0.
Proof.
  rewrite qc_of_Z_stdpp, <- Z2Qc_inj_0. apply Z2Qc_inj_iff.
Qed.

Lemma py_div_of_Z (x : xfloat) (n : Z) :
  n <> 0 -> py_div exact x (of_Z exact n) = Some (div exact x (of_Z exact n)).
Proof.
  intros Hn. unfold py_div. rewrite zero_exact, of_Z_exact, eqb_fin.
  destruct (qc_eqb (qc_of_Z n) 0%Qc) eqn:E; [|reflexivity].
  apply qc_eqb_eq, qc_of_Z_eq0 in E. contradiction.
Qed.

(* ===================================================================== *)
(** ** Current generation *)
(* ===================================================================== *)

Section Generation.
Context (A : Arith).

Lemma positive_powers_qualifying (h : Z) (rows : list (row A)) :
  numeric_powers A rows ->
  positive_powers A (filter (fun d => at_hour h d = true) rows)
  = Some (qualifying_powers A h rows).
Proof.
  induction 1 as [|d rows Hd _ IH]; [reflexivity|].
  rewrite filter_cons. unfold qualifying_powers. cbn [omap list_omap].
  fold (qualifying_powers A h rows).
  destruct (decide (at_hour h d = true)) as [E|E].
  - rewrite E. cbn [positive_powers andb]. rewrite IH.
    destruct (get0 d "AC_POWER") as [|z|x]; [discriminate| |].
    + cbn. now destruct (0 <? z).
    + cbn. now destruct (ltb A (zero A) x).
  - apply not_true_is_false in E. rewrite E. cbn [andb]. exact IH.
Qed.

Lemma qualifying_powers_no_match (h : Z) (rows : list (row A)) :
  filter (fun d => at_hour h d = true) rows = [] ->
  qualifying_powers A h rows = [].
Proof.
  induction rows as [|d rows IH]; [reflexivity|].
  rewrite filter_cons. unfold qualifying_powers. cbn [omap list_omap].
  fold (qualifying_powers A h rows).
  destruct (decide (at_hour h d = true)) as [E|E]; [discriminate|].
  apply not_true_is_false in E. rewrite E. cbn [andb]. exact IH.
Qed.
End Generation.

Lemma plant_avg_average (h : Z) (rows : list (row exact)) :
  numeric_powers exact rows ->
  plant_avg exact (filter (fun d => at_hour h d = true) rows)
  = Some (average exact (qualifying_powers exact h rows)).
Proof.
  intros Hnum. unfold plant_avg.
  destruct (list_empty (filter _ rows)) eqn:Hempty.
  - rewrite qualifying_powers_no_match; [reflexivity|].
    now destruct (filter _ rows).
  - rewrite positive_powers_qualifying by exact Hnum.
    unfold average.
    destruct (qualifying_powers exact h rows) as [|x xs] eqn:Hq; [reflexivity|].
    cbn [list_empty]. apply py_div_of_Z. cbn [length]. lia.
Qed.

Lemma list_empty_false {X} (l : list X) : l <> [] -> list_empty l = false.
Proof. now destruct l. Qed.

(** Claim C3, as amended.  When both plants have a non-empty hourly series
    of numeric AC powers, current generation is the safe-float of the sum
    over the two plants of the average AC power of the plant's rows with
    hour = hour(t) and AC power > 0, a plant without such rows contributing
    0; no scaling factor enters; the value is that sum itself whenever it
    is finite.  [_calculate_real_generation] computes the same. *)
Theorem current_generation_sums_plant_averages
    (data : dataset exact) (current_hour : Z) :
  plant_1_hourly data <> [] ->
  plant_2_hourly data <> [] ->
  numeric_powers exact (plant_1_hourly data) ->
  numeric_powers exact (plant_2_hourly data) ->
  get_current_generation exact data current_hour
    = safe_num exact (claimed_generation exact data current_hour)
  /\ _calculate_real_generation exact current_hour
       (plant_1_hourly data) (plant_2_hourly data)
    = Some (get_current_generation exact data current_hour)
  /\ (forall q : Qc,
        claimed_generation exact data current_hour = Fin q ->
        get_current_generation exact data current_hour = Fin q).
Proof.
  intros H1 H2 N1 N2.
  assert (E : get_current_generation exact data current_hour
              = safe_num exact (claimed_generation exact data current_hour)).
  { unfold get_current_generation.
    rewrite (list_empty_false _ H1), (list_empty_false _ H2). cbn [orb].
    rewrite !plant_avg_average by assumption. reflexivity. }
  split; [exact E|]. split.
  - unfold _calculate_real_generation.
    rewrite (list_empty_false _ H1), (list_empty_false _ H2). cbn [orb].
    rewrite !plant_avg_average by assumption. now rewrite E.
  - intros q Hq. rewrite E, Hq. apply safe_num_fin.
Qed.

(** The statement at noon on two plants with data. *)
Lemma current_generation_sums_plant_averages_witness :
  get_current_generation exact (two_plants exact) 12
    = safe_num exact (claimed_generation exact (two_plants exact) 12)
  /\ _calculate_real_generation exact 12
       (plant_1_hourly (two_plants exact)) (plant_2_hourly (two_plants exact))
    = Some (get_current_generation exact (two_plants exact) 12)
  /\ (forall q : Qc,
        claimed_generation exact (two_plants exact) 12 = Fin q ->
        get_current_generation exact (two_plants exact) 12 = Fin q).
Proof.
  apply (current_generation_sums_plant_averages (two_plants exact) 12).
  - discriminate.
  - discriminate.
  - repeat constructor.
  - repeat constructor.
Defined.

Example current_generation_two_plants :
  get_current_generation exact (two_plants exact) 12 = Fin (qc_of_Z 240)
  /\ get_current_generation binary64 (two_plants binary64) 12 = 240%float.
Proof. split; run_exact. Qed.

(** Claim C3 as stated fails when one plant has rows and the other has an
    empty series: plant 1 averages 100 at noon, plant 2 contributes 0, yet
    the code answers 0. *)
Lemma current_generation_one_plant_empty :
  plant_1_hourly (one_plant exact) <> []
  /\ plant_2_hourly (one_plant exact) = []
  /\ claimed_generation exact (one_plant exact) 12 = Fin hundred
  /\ get_current_generation exact (one_plant exact) 12 = Fin 0%Qc
  /\ get_current_generation binary64 (one_plant binary64) 12 = 0%float.
Proof.
  split; [discriminate|]. split; [reflexivity|].
  split; [run_exact|]. split; run_exact.
Qed.

(** The guard that produces it. *)
Lemma current_generation_guard (A : Arith) (data : dataset A) (h : Z) :
  plant_1_hourly data = [] \/ plant_2_hourly data = [] ->
  get_current_generation A data h = zero A.
Proof.
  unfold get_current_generation.
  intros [-> | ->]; [reflexivity|].
  now rewrite orb_true_r.
Qed.

(* ===================================================================== *)
(** ** The service's view of the configuration *)
(* ===================================================================== *)

Section ConfigView.
Context (A : Arith).

Lemma bind_ok {X Y} (c : M A X) (k : X -> M A Y) w x w' :
  c w = (Ok x, w') -> bind c k w = k x w'.
Proof. unfold bind. now intros ->. Qed.

Lemma bind_raise {X Y} (c : M A X) (k : X -> M A Y) w e w' :
  c w = (Raise e, w') -> bind c k w = (Raise e, w').
Proof. unfold bind. now intros ->. Qed.

(** Loading never raises: every failure ends in the defaults. *)
Lemma _load_config_ok (w : world A) :
  exists c w',
    _load_config A w = (Ok (length (heap w)), w')
    /\ heap w' = heap w ++ [c]
    /\ _config_cache w' = _config_cache w
    /\ svc_config w' = svc_config w
    /\ db_up w' = db_up w.
Proof.
  unfold _load_config.
  destruct (db_up w) eqn:Hup.
  - destruct (db_doc w) as [d|] eqn:Hdoc.
    + destruct (construct_document A d); eexists _, _; cbn; eauto.
    + unfold bind, alloc, _save_config, ret. cbn. rewrite Hup.
      eexists _, _. cbn. eauto.
  - eexists _, _. cbn. eauto.
Qed.

Lemma get_config_ok (w : world A) :
  exists l w',
    get_config A w = (Ok l, w')
    /\ _config_cache w' = Some l
    /\ svc_config w' = svc_config w
    /\ db_up w' = db_up w
    /\ (_config_cache w = Some l -> w' = w)
    /\ (_config_cache w = None ->
        l = length (heap w) /\ exists c, heap w' = heap w ++ [c]).
Proof.
  unfold get_config.
  destruct (_config_cache w) as [l|] eqn:Hc.
  - exists l, w. repeat split; auto; discriminate.
  - destruct (_load_config_ok w) as (c & w1 & E & Hh & Hcc & Hs & Hup).
    rewrite (bind_ok _ _ _ _ _ E).
    eexists _, _. unfold bind, set_cache, ret. cbn.
    split; [reflexivity|]. cbn. repeat split; auto; try discriminate.
    eauto.
Qed.

Lemma _get_config_ok (w : world A) :
  exists l w',
    _get_config A w = (Ok l, w')
    /\ svc_config w' = Some l
    /\ _get_config A w' = (Ok l, w').
Proof.
  unfold _get_config at 1.
  destruct (svc_config w) as [l|] eqn:Hs.
  - exists l, w. split; [reflexivity|]. split; [exact Hs|].
    unfold _get_config. now rewrite Hs.
  - destruct (get_config_ok w) as (l & w1 & E & _).
    rewrite (bind_ok _ _ _ _ _ E).
    eexists _, _. unfold bind, set_svc_config, ret. cbn.
    split; [reflexivity|]. split; [reflexivity|].
    unfold _get_config. reflexivity.
Qed.

Lemma settled_refl (w : world A) : settled A w w.
Proof. now left. Qed.

Lemma settled_get (w : world A) : settled A w (snd (_get_config A w)).
Proof. now right. Qed.

Lemma _get_config_idem (w : world A) :
  _get_config A (snd (_get_config A w)) = _get_config A w.
Proof.
  destruct (_get_config_ok w) as (l & w1 & E & _ & E1).
  rewrite E. cbn. exact E1.
Qed.

Lemma settled_trans (w w1 w2 : world A) :
  settled A w w1 -> settled A w1 w2 -> settled A w w2.
Proof.
  intros [-> | ->] [-> | ->]; try (now left); try (now right).
  right. now rewrite _get_config_idem.
Qed.

Lemma settled_config_read (w w' : world A) :
  settled A w w' -> config_read A w' = config_read A w.
Proof.
  intros [-> | ->]; [reflexivity|].
  unfold config_read. now rewrite _get_config_idem.
Qed.

(** Reading an attribute through the service. *)
Lemma read_config_run (w : world A) :
  exists l w',
    _get_config A w = (Ok l, w')
    /\ default ∅ (heap w' !! l) = config_read A w
    /\ settled A w w'.
Proof.
  destruct (_get_config_ok w) as (l & w1 & E & _).
  exists l, w1. split; [exact E|]. split.
  - unfold config_read. now rewrite E.
  - right. now rewrite E.
Qed.
End ConfigView.

(* ===================================================================== *)
(** ** Consumption: what a call returns *)
(* ===================================================================== *)

Lemma scaled_average_run key totals (w : world exact) :
  exists w',
    scaled_average exact key totals w
      = (Ok (scaled_value exact (config_read exact w) key totals), w')
    /\ settled exact w w'.
Proof.
  destruct totals as [total valid]. unfold scaled_average, scaled_value.
  destruct (0 <? valid) eqn:Hv.
  - apply Z.ltb_lt in Hv.
    rewrite py_div_of_Z by lia.
    destruct (read_config_run exact w) as (l & w1 & E & Hc & Hs).
    exists w1. split; [|exact Hs].
    unfold lift_opt, bind, ret, deref. rewrite E. now rewrite Hc.
  - exists w. split; [reflexivity|apply settled_refl].
Qed.

Lemma _get_hour_consumption_run h demand (w : world exact) :
  exists w',
    _get_hour_consumption exact h demand w
      = (Ok (hour_value exact (config_read exact w) h demand), w')
    /\ settled exact w w'.
Proof.
  unfold _get_hour_consumption, hour_value.
  destruct (list_empty _).
  - exists w. split; [reflexivity|apply settled_refl].
  - apply scaled_average_run.
Qed.

Lemma hour_consumption_value (w : world exact) demand h :
  hour_consumption exact w demand h
  = hour_value exact (config_read exact w) h demand.
Proof.
  unfold hour_consumption.
  destruct (_get_hour_consumption_run h demand w) as (w' & E & _).
  now rewrite E.
Qed.

Lemma qc_of_Z_sub_neq (a b : Z) : a <> b -> qc_of_Z (a - b) <> 0%Qc.
Proof. intros H E. apply qc_of_Z_eq0 in E. lia. Qed.

Lemma _interpolate_consumption_run target demand (w : world exact) :
  exists w',
    _interpolate_consumption exact target demand w
      = (Ok (interpolated_value exact (config_read exact w) target demand), w')
    /\ settled exact w w'.
Proof.
  unfold _interpolate_consumption, interpolated_value.
  destruct (list_empty _).
  { exists w. split; [reflexivity|apply settled_refl]. }
  destruct (scan_hours _ _ _ _) as [[b|] [a|]].
  - destruct (_get_hour_consumption_run b demand w) as (w1 & E1 & S1).
    destruct (_get_hour_consumption_run a demand w1) as (w2 & E2 & S2).
    rewrite (settled_config_read _ _ _ S1) in E2.
    exists w2. split; [|exact (settled_trans _ _ _ _ S1 S2)].
    rewrite (bind_ok _ _ _ _ _ _ E1), (bind_ok _ _ _ _ _ _ E2).
    destruct (a =? b) eqn:Hab; [reflexivity|].
    apply Z.eqb_neq in Hab.
    rewrite py_div_of_Z by lia. reflexivity.
  - apply _get_hour_consumption_run.
  - apply _get_hour_consumption_run.
  - exists w. split; [reflexivity|apply settled_refl].
Qed.

Lemma current_consumption_body_run data h (w : world exact) :
  exists w',
    current_consumption_body exact data h w
      = (Ok (consumption_value exact (config_read exact w) data h), w')
    /\ settled exact w w'.
Proof.
  unfold current_consumption_body, consumption_value.
  destruct (list_empty (demand_data data)).
  { exists w. split; [reflexivity|apply settled_refl]. }
  destruct (list_empty (filter _ _)).
  - apply _interpolate_consumption_run.
  - apply scaled_average_run.
Qed.

Lemma get_current_consumption_run data h (w : world exact) :
  exists w',
    get_current_consumption exact data h w
      = (consumption_value exact (config_read exact w) data h, w')
    /\ settled exact w w'.
Proof.
  destruct (current_consumption_body_run data h w) as (w' & E & S).
  exists w'. split; [|exact S].
  unfold get_current_consumption. now rewrite E.
Qed.

(* --------------------------------------------------------------------- *)
(** *** The two loops as sums *)

Lemma xadd_0_r (x : xfloat) : xadd x (Fin 0%Qc) = x.
Proof. destruct x; cbn; try reflexivity. now rewrite Qcplus_0_r. Qed.

Lemma regional_demand_as_sum (d : row exact) :
  regional_demand exact d = regional_demand_sum exact d.
Proof.
  unfold regional_demand, regional_demand_sum, py_sum.
  generalize (zero exact) as acc.
  induction regions as [|r rs IH]; intros acc; [reflexivity|].
  cbn [foldl omap list_omap]. rewrite IH. clear IH.
  unfold region_term, get0.
  destruct (cols d !! r) as [v|]; cbn [default mbind option_bind].
  - destruct v as [|z|x]; cbn [counted_value id]; try reflexivity.
    destruct (eqb exact x x); reflexivity.
  - change (add exact acc (of_Z exact 0)) with (xadd acc (Fin 0%Qc)).
    now rewrite xadd_0_r.
Qed.

Lemma accumulate_fold (A : Arith) (rows : list (row A)) (total : num A) (n : nat) :
  let kept := filter (fun x => ltb A (zero A) x = true)
                     (map (regional_demand A) rows) in
  foldl (fun '(total_demand_mw, valid_periods) period_data =>
           let rd := regional_demand A period_data in
           if ltb A (zero A) rd
           then (add A total_demand_mw rd, valid_periods + 1)
           else (total_demand_mw, valid_periods))
        (total, Z.of_nat n) rows
  = (foldl (add A) total kept, Z.of_nat (n + length kept)).
Proof.
  cbv zeta. revert total n.
  induction rows as [|d rows IH]; intros total n.
  - cbn. f_equal. lia.
  - cbn [foldl map]. rewrite filter_cons.
    destruct (decide (ltb A (zero A) (regional_demand A d) = true)) as [E|E].
    + rewrite E. replace (Z.of_nat n + 1) with (Z.of_nat (S n)) by lia.
      rewrite IH. cbn [foldl length]. f_equal. lia.
    + apply not_true_is_false in E. rewrite E. apply IH.
Qed.

Lemma accumulate_periods_as_sum (A : Arith) (rows : list (row A)) :
  let kept := filter (fun x => ltb A (zero A) x = true)
                     (map (regional_demand A) rows) in
  accumulate_periods A rows = (py_sum A kept, Z.of_nat (length kept)).
Proof. exact (accumulate_fold A rows (zero A) 0). Qed.

Lemma accumulate_periods_kept h (demand : list (row exact)) :
  accumulate_periods exact (filter (fun d => at_hour h d = true) demand)
  = (py_sum exact (kept_demands exact h demand),
     Z.of_nat (length (kept_demands exact h demand))).
Proof.
  rewrite accumulate_periods_as_sum. unfold kept_demands.
  now rewrite (map_ext _ _ regional_demand_as_sum).
Qed.

Lemma scaled_value_kept c h (demand : list (row exact)) :
  scaled_value exact c "regional_to_community_scaling"
    (accumulate_periods exact (filter (fun d => at_hour h d = true) demand))
  = if list_empty (kept_demands exact h demand) then Fin 0%Qc
    else safe_num exact
           (mul exact (mul exact (avg_MW exact h demand) (Fin thousand))
                      (attr exact c "regional_to_community_scaling")).
Proof.
  rewrite accumulate_periods_kept. unfold scaled_value, avg_MW, average.
  destruct (kept_demands exact h demand) as [|x xs]; [reflexivity|].
  cbn [list_empty length].
  replace (0 <? Z.of_nat (S (length xs))) with true
    by (symmetry; apply Z.ltb_lt; lia).
  reflexivity.
Qed.

(* ===================================================================== *)
(** ** Current consumption *)
(* ===================================================================== *)



Example current_consumption_at_6 :
  fst (get_current_consumption exact (demand_6_10 exact) 6 (fresh_world exact))
    = Fin hundred
  /\ fst (get_current_consumption binary64 (demand_6_10 binary64) 6
            (fresh_world binary64)) = 100%float.
Proof. split; run_exact. Qed.

(* --------------------------------------------------------------------- *)
(** *** Records without a usable region value *)

Lemma void_row_sum (d : row exact) :
  all_regions_void exact d = true -> regional_demand_sum exact d = Fin 0%Qc.
Proof.
  unfold all_regions_void, regional_demand_sum. intros H.
  rewrite forallb_forall in H.
  replace (omap _ regions) with (@nil xfloat); [reflexivity|].
  symmetry. induction regions as [|r rs IH]; [reflexivity|].
  cbn [omap list_omap].
  pose proof (H r (or_introl eq_refl)) as Hr.
  rewrite IH by (intros x Hx; apply H; now right).
  destruct (cols d !! r) as [v|]; [|reflexivity].
  cbn [mbind option_bind].
  destruct v as [|z|x]; cbn in Hr |- *; try reflexivity; try discriminate.
  now destruct (xeqb x x).
Qed.

Lemma void_kept_demands h (demand : list (row exact)) :
  forallb (all_regions_void exact) demand = true ->
  kept_demands exact h demand = [].
Proof.
  intros H. rewrite forallb_forall in H. unfold kept_demands.
  induction demand as [|d demand IH]; [reflexivity|].
  rewrite filter_cons.
  assert (IH' : filter (fun x => ltb exact (zero exact) x = true)
                  (map (regional_demand_sum exact)
                       (filter (fun d => at_hour h d = true) demand)) = [])
    by (apply IH; intros x Hx; apply H; now right).
  destruct (decide (at_hour h d = true)); [|exact IH'].
  cbn [map]. rewrite filter_cons, IH'.
  rewrite void_row_sum by (apply H; now left).
  reflexivity.
Qed.

Lemma void_hour_value c h (demand : list (row exact)) :
  forallb (all_regions_void exact) demand = true ->
  hour_value exact c h demand = Fin 0%Qc.
Proof.
  intros H. unfold hour_value.
  destruct (list_empty _); [reflexivity|].
  rewrite scaled_value_kept, void_kept_demands by exact H. reflexivity.
Qed.



Example void_demand_binary64 :
  fst (get_current_consumption binary64 (void_demand binary64 nan) 8
         (fresh_world binary64)) = 0%float
  /\ fst (get_current_consumption binary64 (void_demand binary64 nan) 6
            (fresh_world binary64)) = 0%float
  /\ fst (get_current_consumption binary64 (void_demand binary64 nan) 3
            (fresh_world binary64)) = 0%float.
Proof. split_all; vm_compute; reflexivity. Qed.

(* ===================================================================== *)
(** ** Hour interpolation *)
(* ===================================================================== *)

(** What the scan of the sorted hours finds around a target that is not
    among them. *)
Lemma scan_hours_sorted (t : Z) (l : list Z) (b0 : option Z) :
  StronglySorted Z.le l -> t ∉ l ->
  (forall b, b0 = Some b -> b < t) ->
  match scan_hours t l b0 None with
  | (bef, aft) =>
      match aft with
      | Some a => a ∈ l /\ t < a /\ forall h, h ∈ l -> t < h -> a <= h
      | None => forall h, h ∈ l -> h < t
      end
      /\ match bef with
         | Some b => (b ∈ l \/ b0 = Some b) /\ b < t
                     /\ forall h, h ∈ l -> h < t -> h <= b
         | None => b0 = None /\ forall h, h ∈ l -> t < h
         end
  end.
Proof.
  intros Hs. revert b0.
  induction Hs as [|h l Hs IH Hall]; intros b0 Hnot Hb0.
  - cbn. split.
    + intros h Hh. now apply elem_of_nil in Hh.
    + destruct b0 as [b|].
      * split; [now right|]. split; [now apply Hb0|].
        intros h Hh. now apply elem_of_nil in Hh.
      * split; [reflexivity|]. intros h Hh. now apply elem_of_nil in Hh.
  - rewrite Forall_forall in Hall.
    assert (Hth : t <> h) by (intros ->; apply Hnot; left).
    assert (Hnot' : t ∉ l) by (intros H; apply Hnot; now right).
    cbn [scan_hours].
    destruct (h <? t) eqn:Hlt.
    + apply Z.ltb_lt in Hlt.
      specialize (IH (Some h) Hnot').
      destruct (scan_hours t l (Some h) None) as [bef aft].
      destruct IH as [IHa IHb]; [intros b [= <-]; exact Hlt|].
      split.
      * destruct aft as [a|].
        -- destruct IHa as (Ha & Hta & Hmin). split; [now right|].
           split; [exact Hta|]. intros x Hx Htx.
           apply elem_of_cons in Hx as [-> | Hx]; [lia|now apply Hmin].
        -- intros x Hx. apply elem_of_cons in Hx as [-> | Hx]; [lia|now apply IHa].
      * destruct bef as [b|].
        -- destruct IHb as (Hb & Hbt & Hmax).
           split.
           { left. destruct Hb as [Hb | [= <-]]; [now right|left]. }
           split; [exact Hbt|]. intros x Hx Hxt.
           apply elem_of_cons in Hx as [-> | Hx]; [|now apply Hmax].
           destruct Hb as [Hb | [= <-]]; [now apply Hall|lia].
        -- destruct IHb as [[=] _].
    + apply Z.ltb_ge in Hlt.
      assert (Hlt' : t < h) by lia.
      replace (t <? h) with true by (symmetry; now apply Z.ltb_lt).
      cbn. split.
      * split; [left|]. split; [exact Hlt'|].
        intros x Hx _. apply elem_of_cons in Hx as [-> | Hx]; [lia|now apply Hall].
      * assert (Hup : forall x, x ∈ h :: l -> t < x).
        { intros x Hx. apply elem_of_cons in Hx as [-> | Hx]; [lia|].
          specialize (Hall x Hx). lia. }
        destruct b0 as [b|].
        -- split; [now right|]. split; [now apply Hb0|].
           intros x Hx Hxt. specialize (Hup x Hx). lia.
        -- split; [reflexivity|exact Hup].
Qed.

Lemma elem_of_available_hours (A : Arith) (demand : list (row A)) (h : Z) :
  h ∈ available_hours demand <-> h ∈ hours_with_data A demand.
Proof.
  unfold available_hours, hours_with_data.
  now rewrite merge_sort_Permutation.
Qed.

Lemma available_hours_sorted (A : Arith) (demand : list (row A)) :
  StronglySorted Z.le (available_hours demand).
Proof. apply StronglySorted_merge_sort; apply _. Qed.

Lemma scan_available_hours (A : Arith) (demand : list (row A)) (t : Z) :
  t ∉ hours_with_data A demand ->
  match scan_hours t (available_hours demand) None None with
  | (bef, aft) =>
      match aft with
      | Some a => nearest_above A demand t a
      | None => forall h, h ∈ hours_with_data A demand -> h < t
      end
      /\ match bef with
         | Some b => nearest_below A demand t b
         | None => forall h, h ∈ hours_with_data A demand -> t < h
         end
  end.
Proof.
  intros Hnot.
  pose proof (scan_hours_sorted t (available_hours demand) None
                (available_hours_sorted A demand)) as H.
  destruct (scan_hours t (available_hours demand) None None) as [bef aft].
  destruct H as [Ha Hb].
  { now rewrite elem_of_available_hours. }
  { discriminate. }
  split.
  - destruct aft as [a|].
    + destruct Ha as (H1 & H2 & H3). split; [now apply elem_of_available_hours|].
      split; [exact H2|]. intros h Hh. apply H3. now apply elem_of_available_hours.
    + intros h Hh. apply Ha. now apply elem_of_available_hours.
  - destruct bef as [b|].
    + destruct Hb as (H1 & H2 & H3).
      split; [destruct H1 as [H1|[=]]; now apply elem_of_available_hours|].
      split; [exact H2|]. intros h Hh. apply H3. now apply elem_of_available_hours.
    + destruct Hb as [_ Hb]. intros h Hh. apply Hb.
      now apply elem_of_available_hours.
Qed.

Lemma nearest_below_unique (A : Arith) (demand : list (row A)) t b b' :
  nearest_below A demand t b -> nearest_below A demand t b' -> b = b'.
Proof.
  intros (H1 & H2 & H3) (H1' & H2' & H3').
  pose proof (H3 b' H1' H2'). pose proof (H3' b H1 H2). lia.
Qed.

Lemma nearest_above_unique (A : Arith) (demand : list (row A)) t a a' :
  nearest_above A demand t a -> nearest_above A demand t a' -> a = a'.
Proof.
  intros (H1 & H2 & H3) (H1' & H2' & H3').
  pose proof (H3 a' H1' H2'). pose proof (H3' a H1 H2). lia.
Qed.

Lemma available_hours_nonempty (A : Arith) (demand : list (row A)) h :
  h ∈ hours_with_data A demand -> list_empty (available_hours demand) = false.
Proof.
  intros H. apply elem_of_available_hours in H.
  destruct (available_hours demand); [now apply elem_of_nil in H|reflexivity].
Qed.

Lemma hour_value_finite c h (demand : list (row exact)) :
  exists q, hour_value exact c h demand = Fin q.
Proof.
  unfold hour_value. destruct (list_empty _); [now exists 0%Qc|].
  unfold scaled_value. destruct (accumulate_periods _ _) as [total valid].
  destruct (0 <? valid); [apply safe_num_finite|now exists 0%Qc].
Qed.

(** The value of the interpolation in each of its four cases. *)
Lemma interpolated_value_cases c (demand : list (row exact)) (t : Z) :
  t ∉ hours_with_data exact demand ->
  let value := fun h => hour_value exact c h demand in
  (forall b a,
      nearest_below exact demand t b -> nearest_above exact demand t a ->
      exists bv av : Qc,
        value b = Fin bv /\ value a = Fin av
        /\ interpolated_value exact c t demand
           = Fin (bv + qc_of_Z (t - b) / qc_of_Z (a - b) * (av - bv))%Qc)
  /\ (forall a,
        nearest_above exact demand t a ->
        (forall h, h ∈ hours_with_data exact demand -> t < h) ->
        interpolated_value exact c t demand = value a)
  /\ (forall b,
        nearest_below exact demand t b ->
        (forall h, h ∈ hours_with_data exact demand -> h < t) ->
        interpolated_value exact c t demand = value b)
  /\ (hours_with_data exact demand = [] ->
      interpolated_value exact c t demand = Fin 0%Qc).
Proof.
  intros Hnot value.
  pose proof (scan_available_hours exact demand t Hnot) as Hscan.
  unfold interpolated_value.
  destruct (scan_hours t (available_hours demand) None None) as [bef aft].
  destruct Hscan as [Ha Hb].
  split; [|split; [|split]].
  - intros b a Hnb Hna.
    destruct Hnb as (Hbin & Hbt & Hbmax). destruct Hna as (Hain & Hat & Hamin).
    rewrite (available_hours_nonempty _ _ _ Hbin).
    destruct bef as [b'|]; [|specialize (Hb b Hbin); lia].
    destruct aft as [a'|]; [|specialize (Ha a Hain); lia].
    assert (b' = b) as -> by (eapply nearest_below_unique; [exact Hb|easy]).
    assert (a' = a) as -> by (eapply nearest_above_unique; [exact Ha|easy]).
    destruct (hour_value_finite c b demand) as [bv Hbv].
    destruct (hour_value_finite c a demand) as [av Hav].
    exists bv, av. unfold value. split; [exact Hbv|]. split; [exact Hav|].
    replace (a =? b) with false by (symmetry; apply Z.eqb_neq; lia).
    rewrite Hbv, Hav, !of_Z_exact, div_fin by (apply qc_of_Z_sub_neq; lia).
    now autorewrite with exact_arith.
  - intros a Hna Hup. destruct Hna as (Hain & Hat & Hamin).
    rewrite (available_hours_nonempty _ _ _ Hain).
    destruct aft as [a'|]; [|specialize (Ha a Hain); lia].
    assert (a' = a) as -> by (eapply nearest_above_unique; [exact Ha|easy]).
    destruct bef as [b'|]; [|reflexivity].
    destruct Hb as (Hb1 & Hb2 & _). specialize (Hup b' Hb1). lia.
  - intros b Hnb Hdown. destruct Hnb as (Hbin & Hbt & Hbmax).
    rewrite (available_hours_nonempty _ _ _ Hbin).
    destruct bef as [b'|]; [|specialize (Hb b Hbin); lia].
    assert (b' = b) as -> by (eapply nearest_below_unique; [exact Hb|easy]).
    destruct aft as [a'|]; [|reflexivity].
    destruct Ha as (Ha1 & Ha2 & _). specialize (Hdown a' Ha1). lia.
  - intros Hnil. unfold available_hours. unfold hours_with_data in Hnil.
    rewrite Hnil. reflexivity.
Qed.

(** Claim C1.  For a target hour no record has: with data strictly below
    and strictly above, the interpolated consumption is before_value +
    ((target - before) / (after - before)) * (after_value - before_value)
    for the nearest such hours; with data on one side only it is that
    side's hour consumption unmodified; with no hour at all it is 0.  With
    100 at hour 6 and 200 at hour 10 the answer at hour 8 is 150, and with
    data at hour 10 only the answer at hour 3 is 200, in the exact model
    and on binary64 numbers. *)
Theorem interpolation_between_nearest_hours :
  (forall (w : world exact) (demand : list (row exact)) (target : Z),
      target ∉ hours_with_data exact demand ->
      let value := hour_consumption exact w demand in
      let result := fst (_interpolate_consumption exact target demand w) in
      (forall b a,
          nearest_below exact demand target b ->
          nearest_above exact demand target a ->
          exists bv av : Qc,
            value b = Fin bv /\ value a = Fin av
            /\ result
               = Ok (Fin (bv + qc_of_Z (target - b) / qc_of_Z (a - b)
                               * (av - bv))%Qc))
      /\ (forall a,
            nearest_above exact demand target a ->
            (forall h, h ∈ hours_with_data exact demand -> target < h) ->
            result = Ok (value a))
      /\ (forall b,
            nearest_below exact demand target b ->
            (forall h, h ∈ hours_with_data exact demand -> h < target) ->
            result = Ok (value b))
      /\ (hours_with_data exact demand = [] -> result = Ok (Fin 0%Qc)))
  /\ (let demand := demand_data (demand_6_10 exact) in
      let w := fresh_world exact in
      hour_consumption exact w demand 6 = Fin hundred
      /\ hour_consumption exact w demand 10 = Fin (qc_of_Z 200)
      /\ fst (_interpolate_consumption exact 8 demand w) = Ok (Fin (qc_of_Z 150))
      /\ fst (get_current_consumption exact (demand_6_10 exact) 8 w)
         = Fin (qc_of_Z 150))
  /\ (let demand := demand_data (demand_10 exact) in
      let w := fresh_world exact in
      hour_consumption exact w demand 10 = Fin (qc_of_Z 200)
      /\ fst (_interpolate_consumption exact 3 demand w) = Ok (Fin (qc_of_Z 200))
      /\ fst (get_current_consumption exact (demand_10 exact) 3 w)
         = Fin (qc_of_Z 200))
  /\ (fst (get_current_consumption binary64 (demand_6_10 binary64) 8
             (fresh_world binary64)) = 150%float
      /\ fst (get_current_consumption binary64 (demand_10 binary64) 3
                (fresh_world binary64)) = 200%float).
Proof.
  split.
  - intros w demand target Hnot value result.
    destruct (_interpolate_consumption_run target demand w) as (w' & E & _).
    subst result. rewrite E. cbn [fst].
    destruct (interpolated_value_cases (config_read exact w) demand target Hnot)
      as (H1 & H2 & H3 & H4).
    subst value. cbv beta in *.
    split; [|split; [|split]].
    + intros b a Hb Ha. destruct (H1 b a Hb Ha) as (bv & av & E1 & E2 & E3).
      exists bv, av. rewrite !hour_consumption_value. now rewrite E3.
    + intros a Ha Hup. now rewrite hour_consumption_value, (H2 a Ha Hup).
    + intros b Hb Hdown. now rewrite hour_consumption_value, (H3 b Hb Hdown).
    + intros Hnil. now rewrite (H4 Hnil).
  - cbv zeta. split; [|split].
    + split; [run_exact|]. split; [run_exact|].
      split; [vm_compute; f_equal; apply Fin_ext; vm_compute; reflexivity|run_exact].
    + split; [run_exact|].
      split; [vm_compute; f_equal; apply Fin_ext; vm_compute; reflexivity|run_exact].
    + split; vm_compute; reflexivity.
Qed.

(* ===================================================================== *)
(** ** Configuration writes *)
(* ===================================================================== *)

Section Writes.
Context (A : Arith).

Lemma validate_fields_reports (schema : list field_spec)
    (body values : gmap string (num A)) (spec : field_spec) (v : num A) :
  spec ∈ schema ->
  body !! f_name spec = Some v ->
  in_bounds A spec v = false ->
  f_name spec ∈ validate_fields A schema body values.
Proof.
  intros Hin Hv Hb. revert values.
  induction Hin as [spec schema|spec spec' schema Hin IH]; intros values;
    [|specialize (IH Hv Hb)].
  - cbn [validate_fields]. rewrite Hv, Hb. cbn [andb]. left.
  - cbn [validate_fields].
    destruct (body !! f_name spec') as [v'|]; [|apply IH].
    destruct (in_bounds A spec' v' && cross_check A (f_name spec') v' values);
      [apply IH|right; apply IH].
Qed.

End Writes.

Ltac pick_elem :=
  repeat first [apply list_elem_of_here | apply list_elem_of_further].


Example update_requests_binary64 :
  rejected_fields binary64
    (fst (update_community_config binary64
            {[ "demand_scaling_factor"%string := 1.5%float ]}
            (fresh_world binary64)))
    = Some ["demand_scaling_factor"%string]
  /\ rejected_fields binary64
       (fst (update_community_config binary64
               {[ "trading_volume_percentage"%string := (-0.5)%float ]}
               (fresh_world binary64)))
     = Some ["trading_volume_percentage"%string]
  /\ rejected_fields binary64
       (fst (update_community_config binary64
               {[ "regional_to_community_scaling"%string := nan ]}
               (fresh_world binary64)))
     = Some ["regional_to_community_scaling"%string].
Proof. split_all; vm_compute; reflexivity. Qed.


(* ===================================================================== *)
(** ** Visibility of configuration updates *)
(* ===================================================================== *)

Section Visibility.
Context (A : Arith).

Lemma coherent_get_config (w : world A) :
  coherent A w -> coherent A (snd (_get_config A w)).
Proof.
  intros Hcoh. pose proof Hcoh as [Hc Hs]. unfold _get_config.
  destruct (svc_config w) as [l|] eqn:E; [exact Hcoh|].
  destruct (get_config_ok A w) as (l & w1 & E1 & Hc1 & Hs1 & _ & Hsame & Hnew).
  rewrite (bind_ok _ _ _ _ _ _ E1). cbn.
  split; cbn; intros l0 H0.
  - rewrite Hc1 in H0. injection H0 as <-.
    destruct (_config_cache w) as [l'|] eqn:Hcw.
    + destruct (get_config_ok A w) as (l2 & w2 & E2 & _).
      unfold get_config in E1. rewrite Hcw in E1. injection E1 as <- <-.
      now apply Hc.
    + destruct (Hnew eq_refl) as (-> & c & ->). rewrite length_app. cbn. lia.
  - now injection H0 as <-.
Qed.

Lemma coherent_settled (w w' : world A) :
  coherent A w -> settled A w w' -> coherent A w'.
Proof. intros H [-> | ->]; [exact H|now apply coherent_get_config]. Qed.

(** A key assigned by the loop keeps the value it was given. *)
Lemma assign_all_preserves c kwargs c' e (k : string) :
  assign_all A c kwargs = (c', e) -> k ∉ kwargs.*1 -> c' !! k = c !! k.
Proof.
  revert c. induction kwargs as [|[key value] rest IH]; intros c H Hk.
  - now injection H as <- _.
  - cbn [assign_all] in H. cbn in Hk.
    apply not_elem_of_cons in Hk as [Hne Hk].
    destruct (hasattr A c key && negb (mem key protected_keys)).
    + rewrite (IH _ H Hk). unfold setattr.
      destruct (mem key metadata_keys); [reflexivity|].
      now apply lookup_insert_ne.
    + destruct (negb (mem key protected_keys)); [now injection H as <- _|].
      now apply IH.
Qed.

Lemma assign_all_assigns c kwargs c' (k : string) (v : num A) :
  assign_all A c kwargs = (c', None) ->
  NoDup kwargs.*1 -> (k, v) ∈ kwargs ->
  mem k metadata_keys = false ->
  c' !! k = Some v.
Proof.
  revert c. induction kwargs as [|[key value] rest IH]; intros c H Hnd Hin Hmeta.
  - now apply elem_of_nil in Hin.
  - cbn in Hnd. apply NoDup_cons in Hnd as [Hfresh Hnd].
    cbn [assign_all] in H.
    apply elem_of_cons in Hin as [[= <- <-] | Hin].
    + assert (Hprot : mem k protected_keys = false).
      { unfold mem in *. apply bool_decide_eq_false. intros Hp.
        apply bool_decide_eq_false in Hmeta. apply Hmeta.
        unfold protected_keys in Hp. unfold metadata_keys.
        rewrite !elem_of_cons in Hp. rewrite !elem_of_cons. tauto. }
      rewrite Hprot in H. cbn [negb] in H. rewrite andb_true_r in H.
      destruct (hasattr A c k); [|discriminate].
      rewrite (assign_all_preserves _ _ _ _ k H Hfresh).
      unfold setattr. rewrite Hmeta. apply lookup_insert_eq.
    + destruct (hasattr A c key && negb (mem key protected_keys)).
      * now apply (IH _ H).
      * destruct (negb (mem key protected_keys)); [discriminate|].
        now apply (IH _ H).
Qed.

(** What a successful [update_config] leaves behind. *)
Lemma update_config_ok kwargs (w w2 : world A) :
  (forall l, _config_cache w = Some l -> (l < length (heap w))%nat) ->
  update_config A kwargs w = (Ok tt, w2) ->
  exists l c0 c' old,
    assign_all A c0 kwargs = (c', None)
    /\ _config_cache w2 = Some l
    /\ heap w2 !! l = Some (calculate_derived_values A c')
    /\ db_doc w2 = Some (calculate_derived_values A c' ∪ old)
    /\ svc_config w2 = svc_config w
    /\ (forall l0, _config_cache w = Some l0 -> l0 = l).
Proof.
  intros Hvalid H. unfold update_config in H.
  destruct (get_config_ok A w) as (l & w1 & E1 & Hc1 & Hs1 & _ & Hsame & Hnew).
  rewrite (bind_ok _ _ _ _ _ _ E1) in H.
  assert (Hl : (l < length (heap w1))%nat).
  { destruct (_config_cache w) as [l'|] eqn:Hcw.
    - unfold get_config in E1. rewrite Hcw in E1. injection E1 as <- <-.
      now apply Hvalid.
    - destruct (Hnew eq_refl) as (-> & c & ->). rewrite length_app. cbn. lia. }
  unfold update_and_calculate, bind, deref, store, raise in H. cbn in H.
  destruct (assign_all A (default ∅ (heap w1 !! l)) kwargs) as [c' [e|]] eqn:Ea;
    [discriminate|].
  cbn in H. rewrite list_lookup_insert_eq in H by exact Hl. cbn in H.
  unfold _save_config, set_cache in H. cbn in H.
  destruct (db_up w1); [|discriminate].
  injection H as <-. cbn.
  exists l, (default ∅ (heap w1 !! l)), c', (default ∅ (db_doc w1)).
  split; [exact Ea|]. split; [reflexivity|].
  split; [now apply list_lookup_insert_eq|].
  split; [reflexivity|]. split; [exact Hs1|].
  intros l0 H0. unfold get_config in E1. rewrite H0 in E1. now injection E1.
Qed.

Lemma derived_keeps_scaling (c : gmap string (num A)) :
  calculate_derived_values A c !! "regional_to_community_scaling"
  = c !! "regional_to_community_scaling".
Proof.
  unfold calculate_derived_values. cbv zeta.
  now rewrite !lookup_insert_ne by discriminate.
Qed.

Lemma config_read_cached (w : world A) l c :
  _config_cache w = Some l -> heap w !! l = Some c ->
  (forall l0, svc_config w = Some l0 -> l0 = l) ->
  config_read A w = c.
Proof.
  intros Hc Hh Hs. unfold config_read, _get_config.
  destruct (svc_config w) as [l0|] eqn:E.
  - rewrite (Hs l0 eq_refl), Hh. reflexivity.
  - unfold bind, get_config, set_svc_config, ret. rewrite Hc. cbn.
    now rewrite Hh.
Qed.
End Visibility.

Lemma consumption_with_value c data h :
  consumption_with exact c data h = consumption_value exact c data h.
Proof.
  unfold consumption_with.
  destruct (get_current_consumption_run data h
              (MkWorld [c] true (Some c) (Some 0%nat) (Some 0%nat)))
    as (w' & E & _).
  rewrite E. reflexivity.
Qed.

(** Claim C5, as amended.  The service keeps the reference it fetched first.
    When that reference is the manager's (the state is [coherent]: always
    so unless the document was reset after the service read it), a query,
    then a successful [update_config] that sets
    regional_to_community_scaling to [v], leave the manager's document, the
    stored document and the document the service reads with the value [v],
    and the next query on the same service answers what a query against
    that document answers. *)
Theorem update_visible_to_next_query
    (w w1 w2 : world exact) (data : dataset exact) (current_hour : Z)
    (kwargs : list (string * num exact)) (v r1 : num exact) :
  coherent exact w ->
  get_current_consumption exact data current_hour w = (r1, w1) ->
  update_config exact kwargs w1 = (Ok tt, w2) ->
  NoDup kwargs.*1 ->
  ("regional_to_community_scaling"%string, v) ∈ kwargs ->
  exists c,
    manager_document exact w2 = Some c
    /\ config_read exact w2 = c
    /\ attr exact c "regional_to_community_scaling" = v
    /\ (db_doc w2 ≫= (.!! "regional_to_community_scaling"%string)) = Some v
    /\ fst (get_current_consumption exact data current_hour w2)
       = consumption_with exact c data current_hour.
Proof.
  intros Hcoh Hq Hu Hnd Hin.
  destruct (get_current_consumption_run data current_hour w) as (w1' & E & S).
  rewrite E in Hq. injection Hq as _ <-.
  pose proof (coherent_settled exact _ _ Hcoh S) as [Hvalid Hsvc].
  destruct (update_config_ok exact kwargs w1' w2 Hvalid Hu)
    as (l & c0 & c' & old & Ea & Hc2 & Hh2 & Hdb & Hs2 & Hsame).
  assert (Hv : calculate_derived_values exact c' !! "regional_to_community_scaling"
               = Some v).
  { rewrite derived_keeps_scaling.
    eapply assign_all_assigns; [exact Ea|exact Hnd|exact Hin|].
    vm_compute. reflexivity. }
  exists (calculate_derived_values exact c').
  assert (Hread : config_read exact w2 = calculate_derived_values exact c').
  { apply (config_read_cached exact w2 l); [exact Hc2|exact Hh2|].
    intros l0 H0. rewrite Hs2 in H0. apply Hsame. now apply Hsvc. }
  split; [unfold manager_document; now rewrite Hc2|].
  split; [exact Hread|].
  split; [unfold attr; now rewrite Hv|].
  split.
  - rewrite Hdb. cbn. now rewrite (lookup_union_Some_l _ _ _ _ Hv).
  - destruct (get_current_consumption_run data current_hour w2) as (w3 & E3 & _).
    rewrite E3. cbn [fst]. now rewrite Hread, consumption_with_value.
Qed.

(* ===================================================================== *)
(** ** Worked sequences *)
(* ===================================================================== *)

Lemma pair_of_fst {X Y} (p : X * Y) (x : X) : fst p = x -> p = (x, snd p).
Proof. destruct p. cbn. now intros ->. Qed.

(** The statement for a fresh process and the factor 0.005. *)
Lemma update_visible_to_next_query_witness :
  let data := demand_6_10 exact in
  let key := "regional_to_community_scaling"%string in
  let kwargs := [(key, lit exact 1 200)] in
  let w1 := snd (get_current_consumption exact data 6 (fresh_world exact)) in
  let w2 := snd (update_config exact kwargs w1) in
  exists c,
    manager_document exact w2 = Some c
    /\ config_read exact w2 = c
    /\ attr exact c key = lit exact 1 200
    /\ (db_doc w2 ≫= (.!! key)) = Some (lit exact 1 200)
    /\ fst (get_current_consumption exact data 6 w2)
       = consumption_with exact c data 6.
Proof.
  cbv zeta.
  apply (update_visible_to_next_query
           (fresh_world exact)
           (snd (get_current_consumption exact (demand_6_10 exact) 6
                   (fresh_world exact)))
           (snd (update_config exact
                   [("regional_to_community_scaling"%string, lit exact 1 200)]
                   (snd (get_current_consumption exact (demand_6_10 exact) 6
                           (fresh_world exact)))))
           (demand_6_10 exact) 6
           [("regional_to_community_scaling"%string, lit exact 1 200)]
           (lit exact 1 200)
           (fst (get_current_consumption exact (demand_6_10 exact) 6
                   (fresh_world exact)))).
  - split; intros l H; discriminate H.
  - apply surjective_pairing.
  - apply pair_of_fst. vm_compute. reflexivity.
  - apply NoDup_singleton.
  - left.
Defined.

Example update_changes_next_answer :
  let data := demand_6_10 exact in
  let kwargs := [("regional_to_community_scaling"%string, lit exact 1 200)] in
  let w1 := snd (get_current_consumption exact data 6 (fresh_world exact)) in
  let w2 := snd (update_config exact kwargs w1) in
  fst (get_current_consumption exact data 6 (fresh_world exact)) = Fin hundred
  /\ fst (get_current_consumption exact data 6 w2) = Fin (qc_of_Z 5000).
Proof. cbv zeta. split; run_exact. Qed.

(** Claim C5 as stated fails after a reset: the service read document 0,
    [reset_config] made the manager hold document 1, and in the sequence
    query, successful update to 0.005, query on the same service, the
    second query still answers 100 (factor 0.0001) while a query against
    the manager's document answers 5000. *)
Lemma reset_leaves_service_on_old_document :
  let data := demand_6_10 exact in
  let key := "regional_to_community_scaling"%string in
  let kwargs := [(key, lit exact 1 200)] in
  let query := get_current_consumption exact data 6 in
  let w1 := snd (query (fresh_world exact)) in
  let w2 := snd (reset_config exact w1) in
  let w3 := snd (query w2) in
  let w4 := snd (update_config exact kwargs w3) in
  fst (reset_config exact w1) = Ok tt
  /\ fst (query w2) = Fin hundred
  /\ fst (update_config exact kwargs w3) = Ok tt
  /\ (manager_document exact w4 ≫= (.!! key)) = Some (lit exact 1 200)
  /\ (db_doc w4 ≫= (.!! key)) = Some (lit exact 1 200)
  /\ svc_config w4 = Some 0%nat
  /\ _config_cache w4 = Some 1%nat
  /\ fst (query w4) = Fin hundred
  /\ option_map (fun c => consumption_with exact c data 6)
                (manager_document exact w4) = Some (Fin (qc_of_Z 5000))
  /\ (let data := demand_6_10 binary64 in
      let kwargs := [(key, lit binary64 1 200)] in
      let query := get_current_consumption binary64 data 6 in
      let w1 := snd (query (fresh_world binary64)) in
      let w2 := snd (reset_config binary64 w1) in
      let w3 := snd (query w2) in
      let w4 := snd (update_config binary64 kwargs w3) in
      fst (query w2) = 100%float
      /\ (manager_document binary64 w4 ≫= (.!! key)) = Some (lit binary64 1 200)
      /\ fst (query w4) = 100%float).
Proof.
  cbv zeta.
  split; [vm_compute; reflexivity|].
  split; [run_exact|].
  split; [vm_compute; reflexivity|].
  split; [vm_compute; f_equal; apply Fin_ext; vm_compute; reflexivity|].
  split; [vm_compute; f_equal; apply Fin_ext; vm_compute; reflexivity|].
  split; [vm_compute; reflexivity|].
  split; [vm_compute; reflexivity|].
  split; [run_exact|].
  split; [vm_compute; f_equal; apply Fin_ext; vm_compute; reflexivity|].
  split_all; vm_compute; reflexivity.
Qed.

(** The two-sided case at hour 8 between hours 6 and 10. *)
Lemma interpolation_between_nearest_hours_witness :
  let demand := demand_data (demand_6_10 exact) in
  let w := fresh_world exact in
  exists bv av : Qc,
    hour_consumption exact w demand 6 = Fin bv
    /\ hour_consumption exact w demand 10 = Fin av
    /\ fst (_interpolate_consumption exact 8 demand w)
       = Ok (Fin (bv + qc_of_Z (8 - 6) / qc_of_Z (10 - 6) * (av - bv))%Qc).
Proof.
  cbv zeta.
  assert (Hh : hours_with_data exact (demand_data (demand_6_10 exact)) = [6; 10])
    by reflexivity.
  assert (Hnot : 8 ∉ hours_with_data exact (demand_data (demand_6_10 exact))).
  { rewrite Hh, !not_elem_of_cons. split; [lia|]. split; [lia|apply not_elem_of_nil]. }
  apply (proj1 (proj1 interpolation_between_nearest_hours
                  (fresh_world exact) (demand_data (demand_6_10 exact)) 8 Hnot)
           6 10).
  - unfold nearest_below. rewrite Hh. split; [pick_elem|]. split; [lia|].
    intros h Hin. rewrite !elem_of_cons in Hin.
    destruct Hin as [-> | [-> | Hin]]; [lia|lia|now apply elem_of_nil in Hin].
  - unfold nearest_above. rewrite Hh. split; [pick_elem|]. split; [lia|].
    intros h Hin. rewrite !elem_of_cons in Hin.
    destruct Hin as [-> | [-> | Hin]]; [lia|lia|now apply elem_of_nil in Hin].
Defined.
